(** * FxnSolanaAdapter: a shallow embedding of [src/client/fxn-solana-adapter.ts]

    The adapter is a thin asynchronous client of an on-chain subscription
    manager.  Its methods are embedded as programs of a small free monad
    whose events are the calls the adapter awaits (account fetches,
    transaction submissions, clock readings); a world answers the events
    and a run records them in a trace.

    Conventions of the embedding.
    - [BN] values and JS numbers holding timestamps are integers ([Z]).
      A conversion between the two fails outside the 53-bit range as bn.js
      does: [new BN(n)] asserts [|n| < 2^53] and [toNumber] refuses a value
      of more than 53 bits.  The arithmetic of the source on numbers is
      exact on integers inside that range, which the statements assume of
      the values they compute with; [durationInDays] is a whole number of
      days.  A clock reading is at most 8.64e15 ms, the largest time value
      of a JS [Date], so the seconds of a reading are always in range.
    - The one floating-point quotient of the source ([daysUntilExpiration])
      is an exact rational ([Q]).  It is only compared with 7: rounding to
      a double is monotone and keeps 7 = 604800 / 86400, while 604801 / 86400
      is more than a spacing of doubles above 7, so the comparison of the
      rounded quotient and of the exact one agree on integer differences.
    - A caught value is the record of what [handleError] reads of it: its
      [code] and [message] properties, whether it is an [Error], and its
      string conversion.  The values the adapter catches are of this kind;
      [handleError_any] extends [handleError] to [null] and [undefined], on
      which reading [code] itself raises.
    - [console.log] / [console.error] calls are not events.
    - [cancelSubscription], [getProviderTokenAccount] and
      [mintRegistrationNFT] await calls of their own and are embedded as
      scripts over those calls; the constructor is not embedded. *)

From Stdlib Require Import ZArith QArith List String Ascii Bool Lia.
From Stdlib Require Import Strings.Byte.
Import ListNotations.
Local Open Scope string_scope.
Local Open Scope list_scope.
Local Open Scope Z_scope.

Set Implicit Arguments.

(** ** Values *)

(** [PublicKey]: the 32 bytes [toBuffer()] returns. *)
Definition PublicKey : Type := list byte.
Definition toBuffer (k : PublicKey) : list byte := k.

(** [Buffer.from(s)] for the ASCII tags of the source. *)
Definition Buffer_from (s : string) : list byte := list_byte_of_string s.

Definition TransactionSignature : Type := string.

(** The [code] property of a caught value: [switch] compares it with [===],
    so a string never equals a numeric case label. *)
Inductive js_code : Type :=
| CodeNumber (n : Z)
| CodeString (s : string).

(** A caught value, as far as [handleError] looks at it. *)
Record thrown : Type := mkThrown {
  code : option js_code;          (* [error.code]; [None] is [undefined] *)
  message : option string;        (* [error.message] *)
  instanceofError : bool;         (* [error instanceof Error] *)
  String_ : string                (* [String(error)] *)
}.

(** [`${error.message}`] *)
Definition message_text (e : thrown) : string :=
  match message e with
  | Some m => m
  | None => "undefined"
  end.

(** [new Error(msg)] *)
Definition newError (msg : string) : thrown :=
  {| code := None;
     message := Some msg;
     instanceofError := true;
     String_ := if String.eqb msg "" then "Error" else ("Error: " ++ msg)%string |}.

(** ** Error codes (enum [SubscriptionErrorCode]) *)

Module SubscriptionErrorCode.
Definition PeriodTooShort : Z := 6000.
Definition AlreadySubscribed : Z := 6001.
Definition InsufficientPayment : Z := 6002.
Definition InvalidNFTHolder : Z := 6003.
Definition SubscriptionNotFound : Z := 6004.
Definition QualityOutOfRange : Z := 6005.
Definition SubscriptionAlreadyEnded : Z := 6006.
Definition ActiveSubscription : Z := 6007.
Definition NotOwner : Z := 6008.
End SubscriptionErrorCode.

(** ** [handleError] *)

Definition handleError (error : thrown) : thrown :=
  match code error with
  | Some c =>
      match c with
      | CodeNumber n =>
          if n =? SubscriptionErrorCode.PeriodTooShort then
            newError "Subscription period is too short"
          else if n =? SubscriptionErrorCode.AlreadySubscribed then
            newError "Already subscribed"
          else if n =? SubscriptionErrorCode.InsufficientPayment then
            newError "Insufficient payment"
          else if n =? SubscriptionErrorCode.InvalidNFTHolder then
            newError "Invalid NFT holder"
          else if n =? SubscriptionErrorCode.SubscriptionNotFound then
            newError "Subscription not found"
          else if n =? SubscriptionErrorCode.QualityOutOfRange then
            newError "Quality score must be between 0 and 100"
          else if n =? SubscriptionErrorCode.SubscriptionAlreadyEnded then
            newError "Subscription has already ended"
          else if n =? SubscriptionErrorCode.ActiveSubscription then
            newError "Subscription is still active"
          else if n =? SubscriptionErrorCode.NotOwner then
            newError "Not the contract owner"
          else newError ("Unknown error: " ++ message_text error)%string
      | CodeString _ => newError ("Unknown error: " ++ message_text error)%string
      end
  | None =>
      if instanceofError error then error else newError (String_ error)
  end.

(** [handleError] takes [error: any].  On [null] and [undefined] the test
    [error.code !== undefined] raises a [TypeError] (the message is the
    engine's; V8's wording is used); on every other value it is
    [handleError]. *)
Inductive js_any : Type :=
| js_null
| js_undefined
| js_value (v : thrown).

Inductive completion : Type :=
| returns (e : thrown)
| throws (e : thrown).

Definition TypeError (msg : string) : thrown :=
  {| code := None;
     message := Some msg;
     instanceofError := true;
     String_ := ("TypeError: " ++ msg)%string |}.

Definition handleError_any (error : js_any) : completion :=
  match error with
  | js_null =>
      throws (TypeError "Cannot read properties of null (reading 'code')")
  | js_undefined =>
      throws
        (TypeError "Cannot read properties of undefined (reading 'code')")
  | js_value v => returns (handleError v)
  end.

(** The error kinds of the taxonomy, with the code and the message the
    source gives each. *)
Inductive error_kind : Type :=
| PeriodTooShort | AlreadySubscribed | InsufficientPayment
| InvalidNFTHolder | SubscriptionNotFound | QualityOutOfRange
| SubscriptionAlreadyEnded | ActiveSubscription | NotOwner.

Definition all_kinds : list error_kind :=
  [PeriodTooShort; AlreadySubscribed; InsufficientPayment; InvalidNFTHolder;
   SubscriptionNotFound; QualityOutOfRange; SubscriptionAlreadyEnded;
   ActiveSubscription; NotOwner].

Definition kind_code (k : error_kind) : Z :=
  match k with
  | PeriodTooShort => SubscriptionErrorCode.PeriodTooShort
  | AlreadySubscribed => SubscriptionErrorCode.AlreadySubscribed
  | InsufficientPayment => SubscriptionErrorCode.InsufficientPayment
  | InvalidNFTHolder => SubscriptionErrorCode.InvalidNFTHolder
  | SubscriptionNotFound => SubscriptionErrorCode.SubscriptionNotFound
  | QualityOutOfRange => SubscriptionErrorCode.QualityOutOfRange
  | SubscriptionAlreadyEnded => SubscriptionErrorCode.SubscriptionAlreadyEnded
  | ActiveSubscription => SubscriptionErrorCode.ActiveSubscription
  | NotOwner => SubscriptionErrorCode.NotOwner
  end.

Definition kind_message (k : error_kind) : string :=
  match k with
  | PeriodTooShort => "Subscription period is too short"
  | AlreadySubscribed => "Already subscribed"
  | InsufficientPayment => "Insufficient payment"
  | InvalidNFTHolder => "Invalid NFT holder"
  | SubscriptionNotFound => "Subscription not found"
  | QualityOutOfRange => "Quality score must be between 0 and 100"
  | SubscriptionAlreadyEnded => "Subscription has already ended"
  | ActiveSubscription => "Subscription is still active"
  | NotOwner => "Not the contract owner"
  end.

(** A code is known when it is the number of one of the nine kinds. *)
Definition known_code (c : js_code) : Prop :=
  exists k, c = CodeNumber (kind_code k).

(** ** [getSubscriptionStatus] *)

Inductive status : Type := active | expired | expiring_soon.

(** The body of [getSubscriptionStatus] once [now] has been read
    ([now = Math.floor(Date.now() / 1000)]) and [endTime.toNumber()] has
    returned [endTimeSeconds]. *)
Definition classify (endTimeSeconds now : Z) : status :=
  let daysUntilExpiration : Q :=
    (inject_Z (endTimeSeconds - now) / inject_Z (24 * 60 * 60))%Q in
  if endTimeSeconds <=? now then expired
  else if Qle_bool daysUntilExpiration (inject_Z 7) then expiring_soon
  else active.

(** ** Accounts, instructions and the calls the adapter awaits *)

(** A settled promise. *)
Inductive result (A : Type) : Type :=
| Ok (a : A)
| Err (e : thrown).
Arguments Err {A} e.

(** [new BN(n)] for a JS number [n]: bn.js asserts [|n| < 2^53]. *)
Definition BN_of_number (n : Z) : result Z :=
  if Z.abs n <? 9007199254740992 then Ok n
  else Err (newError "Assertion failed").

(** [b.toNumber()]: bn.js refuses a value of more than 53 bits. *)
Definition BN_toNumber (b : Z) : result Z :=
  if Z.abs b <? 9007199254740992 then Ok b
  else Err (newError "Number can only safely store up to 53 bits").

Record StateAccount : Type := { owner : PublicKey }.
Record SubscriptionAccount : Type := { endTime : Z; recipient : string }.
Record SubscribersListAccount : Type := { subscribers : list PublicKey }.

(** The adapter never reads a field of the quality account. *)
Inductive QualityInfoAccount : Type := quality_info (data : list byte).

(** One element of [program.account.subscription.all()]. *)
Record ProgramAccount : Type :=
  { publicKey : PublicKey; account : SubscriptionAccount }.

(** The object passed to [.accounts({...})], keys in source order. *)
Definition account_bindings : Type := list (string * PublicKey).

(** [program.methods.<name>(args).accounts(bindings)] *)
Module methods.
Inductive instruction : Type :=
| subscribe (recipient : string) (endTime : Z) (accts : account_bindings)
| initializeQualityInfo (accts : account_bindings)
| renewSubscription (newRecipient : string) (newEndTime : Z)
                    (qualityScore : Z) (accts : account_bindings).
End methods.

Inductive call : Type -> Type :=
| Date_now : call Z
| state_fetch (address : PublicKey) : call (result StateAccount)
| qualityInfo_fetch (address : PublicKey) : call (result QualityInfoAccount)
| subscription_fetch (address : PublicKey) : call (result SubscriptionAccount)
| subscribersList_fetch (address : PublicKey)
    : call (result SubscribersListAccount)
| subscription_all : call (result (list ProgramAccount))
| rpc (ix : methods.instruction) : call (result TransactionSignature).

(** ** Programs: a free monad over [call] with exceptions *)

Inductive Prog (A : Type) : Type :=
| Return (a : A)
| Throw (e : thrown)
| Call (R : Type) (c : call R) (k : R -> Prog A).
Arguments Throw {A} e.
Arguments Call {A R} c k.

Fixpoint bind {A B : Type} (p : Prog A) (f : A -> Prog B) : Prog B :=
  match p with
  | Return a => f a
  | Throw e => Throw e
  | Call c k => Call c (fun r => bind (k r) f)
  end.

(** [try { p } catch (error) { h error }] *)
Fixpoint try_catch {A : Type} (p : Prog A) (h : thrown -> Prog A) : Prog A :=
  match p with
  | Return a => Return a
  | Throw e => h e
  | Call c k => Call c (fun r => try_catch (k r) h)
  end.

Declare Scope prog_scope.
Delimit Scope prog_scope with prog.
Notation "x <- p ;; q" := (bind p (fun x => q))
  (at level 61, p at next level, right associativity) : prog_scope.
Local Open Scope prog_scope.

(** A synchronous call. *)
Definition perform {R : Type} (c : call R) : Prog R := Call c (@Return R).

(** [await c]: a rejected promise throws at the [await]. *)
Definition await {A : Type} (c : call (result A)) : Prog A :=
  Call c (fun r => match r with Ok a => Return a | Err e => Throw e end).

(** [xs.filter(f)] and [xs.map(f)] with callbacks that perform calls. *)
Fixpoint filterP {A : Type} (f : A -> Prog bool) (xs : list A)
  : Prog (list A) :=
  match xs with
  | [] => Return []
  | x :: rest =>
      keep <- f x ;;
      kept <- filterP f rest ;;
      Return (if keep then x :: kept else kept)
  end.

Fixpoint mapP {A B : Type} (f : A -> Prog B) (xs : list A) : Prog (list B) :=
  match xs with
  | [] => Return []
  | x :: rest =>
      y <- f x ;;
      ys <- mapP f rest ;;
      Return (y :: ys)
  end.

(** ** Worlds and runs *)

(** A world answers each call from its current state. *)
Record World (S : Type) : Type :=
  { respond : forall R : Type, call R -> S -> R * S }.

Inductive event : Type := Event (R : Type) (c : call R) (r : R).

Inductive outcome (A : Type) : Type :=
| Resolved (a : A)
| Rejected (e : thrown).
Arguments Rejected {A} e.

Record run_result (S A : Type) : Type :=
  { final : outcome A; trace : list event; state_after : S }.

Fixpoint run {S A : Type} (w : World S) (p : Prog A) (s : S)
  : run_result S A :=
  match p with
  | Return a => {| final := Resolved a; trace := []; state_after := s |}
  | Throw e => {| final := Rejected e; trace := []; state_after := s |}
  | Call c k =>
      let (r, s') := respond w c s in
      let rest := run w (k r) s' in
      {| final := final rest;
         trace := Event c r :: trace rest;
         state_after := state_after rest |}
  end.

(** A chain observed without interference: every fetch and every submission
    is answered as a function of the request, and the [i]-th reading of
    [Date.now()] is [clock_ms i].  The state of this world is the number of
    clock readings made so far. *)
Record Chain : Type := {
  clock_ms : nat -> Z;
  state_account : PublicKey -> result StateAccount;
  qualityInfo_account : PublicKey -> result QualityInfoAccount;
  subscription_account : PublicKey -> result SubscriptionAccount;
  subscribersList_account : PublicKey -> result SubscribersListAccount;
  subscription_accounts : result (list ProgramAccount);
  send : methods.instruction -> result TransactionSignature
}.

Definition chain_respond (ch : Chain) (R : Type) (c : call R) (n : nat)
  : R * nat :=
  match c in call R0 return R0 * nat with
  | Date_now => (clock_ms ch n, S n)
  | state_fetch a => (state_account ch a, n)
  | qualityInfo_fetch a => (qualityInfo_account ch a, n)
  | subscription_fetch a => (subscription_account ch a, n)
  | subscribersList_fetch a => (subscribersList_account ch a, n)
  | subscription_all => (subscription_accounts ch, n)
  | rpc ix => (send ch ix, n)
  end.

Definition chain_world (ch : Chain) : World nat :=
  {| respond := chain_respond ch |}.

(** ** Classifiers of trace events *)

Definition is_Err {A : Type} (r : result A) : bool :=
  match r with Ok _ => false | Err _ => true end.

Definition quality_fetch_failed (ev : event) : bool :=
  match ev with
  | Event c r =>
      match c in call R0 return R0 -> bool with
      | qualityInfo_fetch _ => fun r => is_Err r
      | _ => fun _ => false
      end r
  end.

Definition quality_fetch_succeeded (ev : event) : bool :=
  match ev with
  | Event c r =>
      match c in call R0 return R0 -> bool with
      | qualityInfo_fetch _ => fun r => negb (is_Err r)
      | _ => fun _ => false
      end r
  end.

Definition is_initialize (ev : event) : bool :=
  match ev with
  | Event c _ =>
      match c with
      | rpc (methods.initializeQualityInfo _) => true
      | _ => false
      end
  end.

Definition is_renew (ev : event) : bool :=
  match ev with
  | Event c _ =>
      match c with
      | rpc (methods.renewSubscription _ _ _ _) => true
      | _ => false
      end
  end.

Definition is_subscribe (ev : event) : bool :=
  match ev with
  | Event c _ =>
      match c with
      | rpc (methods.subscribe _ _ _) => true
      | _ => false
      end
  end.

(** The failure, if any, with which an [initializeQualityInfo] submission
    was answered. *)
Definition initialize_failure (ev : event) : option thrown :=
  match ev with
  | Event c r =>
      match c in call R0 return R0 -> option thrown with
      | rpc (methods.initializeQualityInfo _) =>
          fun r => match r with Ok _ => None | Err e => Some e end
      | _ => fun _ => None
      end r
  end.

Definition count_events (f : event -> bool) (t : list event) : nat :=
  List.length (List.filter f t).

(** ** The adapter *)

(** What the adapter takes from [@solana/web3.js] and [@solana/spl-token]:
    the address-derivation primitive (address and bump seed) and two
    well-known program identifiers. *)
Class Web3 : Type := {
  findProgramAddressSync : list (list byte) -> PublicKey -> PublicKey * Z;
  SystemProgram_programId : PublicKey;
  TOKEN_PROGRAM_ID : PublicKey
}.

(** The fields of [FxnSolanaAdapter] its methods read:
    [this.program.programId] and [this.provider.wallet.publicKey]. *)
Record FxnSolanaAdapter : Type := {
  programId : PublicKey;
  wallet_publicKey : option PublicKey
}.

Module CreateSubscriptionParams.
Record t : Type := {
  dataProvider : PublicKey;
  recipient : string;
  durationInDays : Z;             (* a whole number of days *)
  nftTokenAccount : PublicKey
}.
End CreateSubscriptionParams.

Module RenewParams.
Record t : Type := {
  dataProvider : PublicKey;
  newRecipient : string;
  newEndTime : Z;
  qualityScore : Z;
  nftTokenAccount : PublicKey
}.
End RenewParams.

Record ProgramAddresses : Type := {
  statePDA : PublicKey;
  qualityPDA : PublicKey;
  subscriptionPDA : PublicKey;
  subscribersListPDA : PublicKey
}.

(** One element of the array [getAllSubscriptionsForUser] returns. *)
Record SubscriptionStatus : Type := {
  subscription : SubscriptionAccount;
  subscriptionPDA_of : PublicKey;
  status_of : status
}.

(** [Math.floor(ms / 1000)] *)
Definition seconds (ms : Z) : Z := ms / 1000.

Section Adapter.
Context {web3 : Web3}.
Variable this : FxnSolanaAdapter.

Definition getProgramAddresses (dataProvider subscriber : PublicKey)
  : ProgramAddresses :=
  let statePDA :=
    fst (findProgramAddressSync [Buffer_from "storage"] (programId this)) in
  let qualityPDA :=
    fst (findProgramAddressSync
           [Buffer_from "quality"; toBuffer dataProvider]
           (programId this)) in
  let subscriptionPDA :=
    fst (findProgramAddressSync
           [Buffer_from "subscription"; toBuffer subscriber;
            toBuffer dataProvider]
           (programId this)) in
  let subscribersListPDA :=
    fst (findProgramAddressSync
           [Buffer_from "subscribers"; toBuffer dataProvider]
           (programId this)) in
  {| statePDA := statePDA;
     qualityPDA := qualityPDA;
     subscriptionPDA := subscriptionPDA;
     subscribersListPDA := subscribersListPDA |}.

Definition subscribe_accounts (params : CreateSubscriptionParams.t)
           (subscriber : PublicKey) (pdas : ProgramAddresses)
           (state : StateAccount) : account_bindings :=
  [ ("state", statePDA pdas);
    ("subscriber", subscriber);
    ("dataProvider", CreateSubscriptionParams.dataProvider params);
    ("subscription", subscriptionPDA pdas);
    ("subscribersList", subscribersListPDA pdas);
    ("owner", owner state);
    ("systemProgram", SystemProgram_programId);
    ("tokenProgram", TOKEN_PROGRAM_ID);
    ("nftTokenAccount", CreateSubscriptionParams.nftTokenAccount params) ].

Definition createSubscription (params : CreateSubscriptionParams.t)
  : Prog TransactionSignature :=
  match wallet_publicKey this with
  | None => Throw (newError "Wallet not connected")
  | Some subscriber =>
      try_catch
        (let pdas :=
           getProgramAddresses
             (CreateSubscriptionParams.dataProvider params) subscriber in
         state <- await (state_fetch (statePDA pdas)) ;;
         ms <- perform Date_now ;;
         match BN_of_number
                 (seconds ms
                  + CreateSubscriptionParams.durationInDays params
                    * 24 * 60 * 60) with
         | Err e => Throw e
         | Ok endTime =>
             txHash <- await (rpc (methods.subscribe
                          (CreateSubscriptionParams.recipient params)
                          endTime
                          (subscribe_accounts params subscriber pdas
                                              state))) ;;
             Return txHash
         end)
        (fun error => Throw (handleError error))
  end.

Definition getSubscriptionStatus (endTime : Z) : Prog status :=
  ms <- perform Date_now ;;
  match BN_toNumber endTime with
  | Err e => Throw e
  | Ok endTimeSeconds => Return (classify endTimeSeconds (seconds ms))
  end.

Definition getAgentSubscribers (agentAddress : PublicKey)
  : Prog (list PublicKey) :=
  try_catch
    (let subscribersListPDA :=
       fst (findProgramAddressSync
              [Buffer_from "subscribers"; toBuffer agentAddress]
              (programId this)) in
     try_catch
       (subscribersList <- await (subscribersList_fetch subscribersListPDA) ;;
        Return (subscribers subscribersList))
       (fun _ => Return []))
    (fun error => Throw (handleError error)).

(** The body of the [for ... of] loop, from the current [activeCount] to
    the next one. *)
Definition count_step (agentAddress subscriber : PublicKey)
           (activeCount : nat) : Prog nat :=
  let subscriptionPDA :=
    fst (findProgramAddressSync
           [Buffer_from "subscription"; toBuffer subscriber;
            toBuffer agentAddress]
           (programId this)) in
  try_catch
    (subscription <- await (subscription_fetch subscriptionPDA) ;;
     ms <- perform Date_now ;;
     if endTime subscription >? seconds ms
     then Return (S activeCount)
     else Return activeCount)
    (fun _ => Return activeCount).

Fixpoint count_loop (agentAddress : PublicKey) (subscribers : list PublicKey)
         (activeCount : nat) : Prog nat :=
  match subscribers with
  | [] => Return activeCount
  | subscriber :: rest =>
      activeCount' <- count_step agentAddress subscriber activeCount ;;
      count_loop agentAddress rest activeCount'
  end.

Definition getActiveSubscriptionsForAgent (agentAddress : PublicKey)
  : Prog nat :=
  try_catch
    (subscribers <- getAgentSubscribers agentAddress ;;
     count_loop agentAddress subscribers 0%nat)
    (fun error => Throw (handleError error)).

Definition getAllSubscriptionsForUser (userPublicKey : PublicKey)
  : Prog (list SubscriptionStatus) :=
  try_catch
    (subscriptionAccounts <- await subscription_all ;;
     kept <- filterP
               (fun acc =>
                  ms <- perform Date_now ;;
                  Return (endTime (account acc) >? seconds ms))
               subscriptionAccounts ;;
     userSubscriptions <- mapP
               (fun acc =>
                  st <- getSubscriptionStatus (endTime (account acc)) ;;
                  Return {| subscription := account acc;
                            subscriptionPDA_of := publicKey acc;
                            status_of := st |})
               kept ;;
     Return userSubscriptions)
    (fun error => Throw (handleError error)).

Definition initialize_accounts (params : RenewParams.t)
           (subscriber : PublicKey) (pdas : ProgramAddresses)
  : account_bindings :=
  [ ("qualityInfo", qualityPDA pdas);
    ("dataProvider", RenewParams.dataProvider params);
    ("payer", subscriber);
    ("systemProgram", SystemProgram_programId) ].

Definition renew_accounts (params : RenewParams.t)
           (subscriber : PublicKey) (pdas : ProgramAddresses)
           (state : StateAccount) : account_bindings :=
  [ ("state", statePDA pdas);
    ("subscriber", subscriber);
    ("dataProvider", RenewParams.dataProvider params);
    ("subscription", subscriptionPDA pdas);
    ("qualityInfo", qualityPDA pdas);
    ("owner", owner state);
    ("systemProgram", SystemProgram_programId);
    ("tokenProgram", TOKEN_PROGRAM_ID);
    ("nftTokenAccount", RenewParams.nftTokenAccount params) ].

Definition renewSubscription (params : RenewParams.t)
  : Prog TransactionSignature :=
  match wallet_publicKey this with
  | None => Throw (newError "Wallet not connected")
  | Some subscriber =>
      try_catch
        (let pdas :=
           getProgramAddresses (RenewParams.dataProvider params) subscriber in
         _ <- try_catch
                (_ <- await (qualityInfo_fetch (qualityPDA pdas)) ;;
                 Return tt)
                (fun _ =>
                   _ <- await (rpc (methods.initializeQualityInfo
                                (initialize_accounts params subscriber pdas))) ;;
                   Return tt) ;;
         state <- await (state_fetch (statePDA pdas)) ;;
         match BN_of_number (RenewParams.newEndTime params) with
         | Err e => Throw e
         | Ok newEndTime =>
             txHash <- await (rpc (methods.renewSubscription
                          (RenewParams.newRecipient params)
                          newEndTime
                          (RenewParams.qualityScore params)
                          (renew_accounts params subscriber pdas state))) ;;
             Return txHash
         end)
        (fun error => Throw (handleError error))
  end.

Definition getSubscriptionState (subscriptionPDA : PublicKey)
  : Prog SubscriptionAccount :=
  try_catch
    (await (subscription_fetch subscriptionPDA))
    (fun error => Throw (handleError error)).

Definition getQualityInfo (dataProvider : PublicKey)
  : Prog QualityInfoAccount :=
  try_catch
    (let qualityPDA :=
       fst (findProgramAddressSync
              [Buffer_from "quality"; toBuffer dataProvider]
              (programId this)) in
     await (qualityInfo_fetch qualityPDA))
    (fun error => Throw (handleError error)).

End Adapter.

(** ** Reference notions the properties are stated with *)

Section Reference.
Context {web3 : Web3}.
Variable this : FxnSolanaAdapter.

(** The subscribers the list account of [agentAddress] holds on a chain;
    none when the account cannot be fetched. *)
Definition listed_subscribers (ch : Chain) (agentAddress : PublicKey)
  : list PublicKey :=
  match subscribersList_account ch
          (fst (findProgramAddressSync
                  [Buffer_from "subscribers"; toBuffer agentAddress]
                  (programId this))) with
  | Ok l => subscribers l
  | Err _ => []
  end.

(** A subscriber whose subscription record for [agentAddress] can be fetched
    and ends strictly after [now]. *)
Definition fetched_and_active (ch : Chain) (agentAddress : PublicKey)
           (now : Z) (subscriber : PublicKey) : bool :=
  match subscription_account ch
          (subscriptionPDA
             (getProgramAddresses this agentAddress subscriber)) with
  | Ok sub => now <? endTime sub
  | Err _ => false
  end.

End Reference.

(** A value of at most 53 bits, which [toNumber] converts. *)
Definition fits_53_bits (n : Z) : bool := Z.abs n <? 9007199254740992.

(** What [toNumber] throws on a value of more than 53 bits. *)
Definition toNumber_refusal : thrown :=
  newError "Number can only safely store up to 53 bits".

(** The record [getAllSubscriptionsForUser] builds for a kept account when
    the clock reads [now] seconds. *)
Definition listed (now : Z) (acc : ProgramAccount) : SubscriptionStatus :=
  {| subscription := account acc;
     subscriptionPDA_of := publicKey acc;
     status_of := classify (endTime (account acc)) now |}.

(** The account bindings of a submitted instruction. *)
Definition bindings_of (ix : methods.instruction) : account_bindings :=
  match ix with
  | methods.subscribe _ _ accts => accts
  | methods.initializeQualityInfo accts => accts
  | methods.renewSubscription _ _ _ accts => accts
  end.

(** An instruction is bound to all four derived addresses when each of them
    is the value of one of its account bindings. *)
Definition binds_all_derived (pdas : ProgramAddresses)
           (ix : methods.instruction) : Prop :=
  forall a,
    In a [statePDA pdas; qualityPDA pdas; subscriptionPDA pdas;
          subscribersListPDA pdas] ->
    In a (map snd (bindings_of ix)).

(** A failed [initializeQualityInfo] is treated as success by a run when the
    renew transition is still submitted and the run does not reject with
    the translation of that failure. *)
Definition initialize_failure_swallowed {S A : Type} (r : run_result S A)
           (e : thrown) : Prop :=
  existsb is_renew (trace r) = true /\ final r <> Rejected (handleError e).

(** The initialize submission comes once, and before any renew submission. *)
Definition one_initialize_first (t : list event) : Prop :=
  exists pre ev post,
    t = pre ++ ev :: post /\
    is_initialize ev = true /\
    existsb is_initialize pre = false /\
    existsb is_renew pre = false /\
    existsb is_initialize post = false.

(** ** Concrete worlds used to exercise the statements *)

(** A stand-in for the hash-based derivation: seeds and program identifier
    are laid end to end, so distinct seed lists of the examples give distinct
    addresses. *)
Definition demo_find (seeds : list (list byte)) (pid : PublicKey)
  : PublicKey * Z :=
  (List.concat seeds ++ pid, 255).

Definition demo_web3 : Web3 :=
  {| findProgramAddressSync := demo_find;
     SystemProgram_programId := List.repeat x00 32;
     TOKEN_PROGRAM_ID := [x06; xdd] |}.

Definition alice : PublicKey := [x0a].
Definition bob : PublicKey := [x0b].
Definition carol : PublicKey := [x0c].
Definition provider1 : PublicKey := [xa1].
Definition admin : PublicKey := [xad].

Definition demo_adapter : FxnSolanaAdapter :=
  {| programId := [xf0]; wallet_publicKey := Some alice |}.

Definition demo_pdas (provider subscriber : PublicKey) : ProgramAddresses :=
  getProgramAddresses (web3 := demo_web3) demo_adapter provider subscriber.

Definition account_not_found : thrown :=
  newError "Account does not exist or has no data".

(** What the client raises when the account to create is already there. *)
Definition account_already_exists : thrown :=
  newError "Transaction simulation failed: account already in use".

Definition byte_list_eqb (a b : list byte) : bool :=
  if list_eq_dec Byte.byte_eq_dec a b then true else false.

(** No quality account yet, and the initialize submission is refused because
    the account already exists; everything else succeeds. *)
Definition race_chain : Chain :=
  {| clock_ms := fun _ => 1700000000000;
     state_account := fun _ => Ok {| owner := admin |};
     qualityInfo_account := fun _ => Err account_not_found;
     subscription_account := fun _ => Err account_not_found;
     subscribersList_account := fun _ => Err account_not_found;
     subscription_accounts := Ok [];
     send := fun ix =>
       match ix with
       | methods.initializeQualityInfo _ => Err account_already_exists
       | _ => Ok "tx-renew"
       end |}.

(** Three subscribers of [provider1]; alice and bob hold subscriptions that
    end after the clock value, carol's record cannot be fetched. *)
Definition three_chain : Chain :=
  {| clock_ms := fun _ => 1700000000000;
     state_account := fun _ => Ok {| owner := admin |};
     qualityInfo_account := fun _ => Ok (quality_info []);
     subscription_account := fun a =>
       if byte_list_eqb a (subscriptionPDA (demo_pdas provider1 alice))
       then Ok {| endTime := 1700604800; recipient := "alice" |}
       else if byte_list_eqb a (subscriptionPDA (demo_pdas provider1 bob))
       then Ok {| endTime := 1700000001; recipient := "bob" |}
       else Err account_not_found;
     subscribersList_account := fun a =>
       if byte_list_eqb a (subscribersListPDA (demo_pdas provider1 alice))
       then Ok {| subscribers := [alice; carol; bob] |}
       else Err account_not_found;
     subscription_accounts :=
       Ok [ {| publicKey := subscriptionPDA (demo_pdas provider1 alice);
               account := {| endTime := 1700604800; recipient := "alice" |} |};
            {| publicKey := subscriptionPDA (demo_pdas provider1 carol);
               account := {| endTime := 1700000000; recipient := "carol" |} |};
            {| publicKey := subscriptionPDA (demo_pdas provider1 bob);
               account := {| endTime := 1700604801; recipient := "bob" |} |} ];
     send := fun _ => Ok "tx-1" |}.

Definition demo_renew : RenewParams.t :=
  {| RenewParams.dataProvider := provider1;
     RenewParams.newRecipient := "alice";
     RenewParams.newEndTime := 1702592000;
     RenewParams.qualityScore := 90;
     RenewParams.nftTokenAccount := [x77] |}.

Definition demo_create : CreateSubscriptionParams.t :=
  {| CreateSubscriptionParams.dataProvider := provider1;
     CreateSubscriptionParams.recipient := "alice";
     CreateSubscriptionParams.durationInDays := 30;
     CreateSubscriptionParams.nftTokenAccount := [x77] |}.

(** The runs of the examples, all from a fresh world. *)
Definition race_run : run_result nat TransactionSignature :=
  run (chain_world race_chain)
      (renewSubscription (web3 := demo_web3) demo_adapter demo_renew) 0%nat.

Definition create_run : run_result nat TransactionSignature :=
  run (chain_world three_chain)
      (createSubscription (web3 := demo_web3) demo_adapter demo_create) 0%nat.

(** The instruction [create_run] submits. *)
Definition create_instruction : methods.instruction :=
  methods.subscribe "alice" (1700000000 + 30 * 86400)
    (subscribe_accounts (web3 := demo_web3) demo_create alice
       (demo_pdas provider1 alice) {| owner := admin |}).

(** What [getAllSubscriptionsForUser] returns on [three_chain]. *)
Definition three_listed : list SubscriptionStatus :=
  [ {| subscription := {| endTime := 1700604800; recipient := "alice" |};
       subscriptionPDA_of := subscriptionPDA (demo_pdas provider1 alice);
       status_of := expiring_soon |};
    {| subscription := {| endTime := 1700604801; recipient := "bob" |};
       subscriptionPDA_of := subscriptionPDA (demo_pdas provider1 bob);
       status_of := active |} ].

(** ** Further notions for the properties of the whole adapter *)

(** The order of the statuses along the life of a subscription. *)
Definition status_rank (st : status) : Z :=
  match st with
  | expired => 0
  | expiring_soon => 1
  | active => 2
  end.

(** A transaction submission. *)
Definition is_rpc (ev : event) : bool :=
  match ev with
  | Event c _ =>
      match c with
      | rpc _ => true
      | _ => false
      end
  end.

(** A reading of the clock. *)
Definition is_clock (ev : event) : bool :=
  match ev with
  | Event c _ =>
      match c with
      | Date_now => true
      | _ => false
      end
  end.

(** The addresses of the subscription records fetched, in order. *)
Definition subscription_fetches (t : list event) : list PublicKey :=
  flat_map (fun ev =>
              match ev with
              | Event c _ =>
                  match c with
                  | subscription_fetch a => [a]
                  | _ => []
                  end
              end) t.

(** The end times of the [subscribe] instructions submitted, in order. *)
Definition subscribe_endTimes (t : list event) : list Z :=
  flat_map (fun ev =>
              match ev with
              | Event c _ =>
                  match c with
                  | rpc (methods.subscribe _ endTime _) => [endTime]
                  | _ => []
                  end
              end) t.


(** ** Cancelling and the NFT helpers *)

(** [cancelSubscription], [getProviderTokenAccount] and
    [mintRegistrationNFT] await calls of their own: the cancel instruction,
    whose NFT token account may be [undefined], and functions of
    [@solana/spl-token] and of the connection.  They are embedded as scripts
    over these calls, built like [Prog]. *)

Module CancelParams.
Record t : Type := {
  dataProvider : PublicKey;
  qualityScore : Z;
  nftTokenAccount : option PublicKey
}.
End CancelParams.

(** The adapter only tests the result of [getAccountInfo] against [null]. *)
Inductive AccountInfo : Type := account_info (data : list byte).

Inductive side_call : Type -> Type :=
| rpc_cancelSubscription (qualityScore : Z)
                         (accts : list (string * option PublicKey))
    : side_call (result TransactionSignature)
| getAssociatedTokenAddress (mint owner : PublicKey)
                            (allowOwnerOffCurve : bool)
    : side_call (result PublicKey)
| getAccountInfo (address : PublicKey) : side_call (result (option AccountInfo))
| createMint (payer mintAuthority : PublicKey)
             (freezeAuthority : option PublicKey) (decimals : Z)
             (tokenProgram : PublicKey)
    : side_call (result PublicKey)
| createAssociatedTokenAccount (payer mint owner : PublicKey)
    : side_call (result PublicKey)
| mintTo (payer mint destination authority : PublicKey) (amount : Z)
    : side_call (result TransactionSignature).

Inductive Script (A : Type) : Type :=
| Done (a : A)
| Fail (e : thrown)
| Step (R : Type) (c : side_call R) (k : R -> Script A).
Arguments Fail {A} e.
Arguments Step {A R} c k.

Fixpoint script_bind {A B : Type} (p : Script A) (f : A -> Script B)
  : Script B :=
  match p with
  | Done a => f a
  | Fail e => Fail e
  | Step c k => Step c (fun r => script_bind (k r) f)
  end.

Fixpoint script_try {A : Type} (p : Script A) (h : thrown -> Script A)
  : Script A :=
  match p with
  | Done a => Done a
  | Fail e => h e
  | Step c k => Step c (fun r => script_try (k r) h)
  end.

Declare Scope script_scope.
Delimit Scope script_scope with script.
Notation "x <- p ;; q" := (script_bind p (fun x => q))
  (at level 61, p at next level, right associativity) : script_scope.

Definition script_await {A : Type} (c : side_call (result A)) : Script A :=
  Step c (fun r => match r with Ok a => Done a | Err e => Fail e end).

Record Backend (S : Type) : Type :=
  { reply : forall R : Type, side_call R -> S -> R * S }.

Inductive side_event : Type :=
  SideEvent (R : Type) (c : side_call R) (r : R).

Record script_result (S A : Type) : Type :=
  { script_final : outcome A;
    script_trace : list side_event;
    script_state : S }.

Fixpoint script_run {S A : Type} (b : Backend S) (p : Script A) (s : S)
  : script_result S A :=
  match p with
  | Done a =>
      {| script_final := Resolved a; script_trace := []; script_state := s |}
  | Fail e =>
      {| script_final := Rejected e; script_trace := []; script_state := s |}
  | Step c k =>
      let (r, s') := reply b c s in
      let rest := script_run b (k r) s' in
      {| script_final := script_final rest;
         script_trace := SideEvent c r :: script_trace rest;
         script_state := script_state rest |}
  end.

(** The value [mintRegistrationNFT] resolves to. *)
Record MintedNFT : Type := { mint : PublicKey; tokenAccount : PublicKey }.

Section SideMethods.
Context {web3 : Web3}.
Variable this : FxnSolanaAdapter.

Definition cancel_accounts (params : CancelParams.t) (subscriber : PublicKey)
           (pdas : ProgramAddresses) : list (string * option PublicKey) :=
  [ ("subscriber", Some subscriber);
    ("dataProvider", Some (CancelParams.dataProvider params));
    ("subscription", Some (subscriptionPDA pdas));
    ("qualityInfo", Some (qualityPDA pdas));
    ("tokenProgram", Some TOKEN_PROGRAM_ID);
    ("nftTokenAccount", CancelParams.nftTokenAccount params) ].

Definition cancelSubscription (params : CancelParams.t)
  : Script TransactionSignature :=
  match wallet_publicKey this with
  | None => Fail (newError "Wallet not connected")
  | Some subscriber =>
      script_try
        (let pdas :=
           getProgramAddresses this (CancelParams.dataProvider params)
                               subscriber in
         txHash <- script_await
                     (rpc_cancelSubscription
                        (CancelParams.qualityScore params)
                        (cancel_accounts params subscriber pdas)) ;;
         Done txHash)%script
        (fun error => Fail (handleError error))
  end.

(** [nftMintKey] is the outcome of
    [new PublicKey(process.env.DEVNET_NFT_TOKEN_ADDRESS!)], which is
    evaluated before the [try] block. *)
Definition getProviderTokenAccount (nftMintKey : result PublicKey)
           (providerAddress : PublicKey) : Script PublicKey :=
  match nftMintKey with
  | Err e => Fail e
  | Ok nftMint =>
      script_try
        (tokenAccount <- script_await
                           (getAssociatedTokenAddress nftMint providerAddress
                                                      false) ;;
         tokenAccountInfo <- script_await (getAccountInfo tokenAccount) ;;
         match tokenAccountInfo with
         | None => Fail (newError "Provider does not have the required NFT")
         | Some _ => Done tokenAccount
         end)%script
        (fun error => Fail (handleError error))
  end.

Definition mintRegistrationNFT : Script MintedNFT :=
  match wallet_publicKey this with
  | None => Fail (newError "Wallet not connected")
  | Some wallet =>
      script_try
        (mint <- script_await
                   (createMint wallet wallet None 0 TOKEN_PROGRAM_ID) ;;
         tokenAccount <- script_await
                           (createAssociatedTokenAccount wallet mint wallet) ;;
         _ <- script_await (mintTo wallet mint tokenAccount wallet 1) ;;
         Done {| mint := mint; tokenAccount := tokenAccount |})%script
        (fun error => Fail (handleError error))
  end.

End SideMethods.

(** A backend answering as a function of the request. *)
Definition fixed_backend
           (answer : forall R : Type, side_call R -> R) : Backend unit :=
  {| reply := fun R c s => (answer R c, s) |}.

(** A provider holding the NFT, a mint that succeeds, a cancel accepted. *)
Definition demo_answer (R : Type) (c : side_call R) : R :=
  match c in side_call R0 return R0 with
  | rpc_cancelSubscription _ _ => Ok "tx-cancel"
  | getAssociatedTokenAddress mint owner _ => Ok (owner ++ mint)
  | getAccountInfo _ => Ok (Some (account_info []))
  | createMint _ _ _ _ _ => Ok [x33]
  | createAssociatedTokenAccount _ mint owner => Ok (owner ++ mint)
  | mintTo _ _ _ _ _ => Ok "tx-mint"
  end.

Definition demo_cancel : CancelParams.t :=
  {| CancelParams.dataProvider := provider1;
     CancelParams.qualityScore := 80;
     CancelParams.nftTokenAccount := None |}.

(** Further chains for the examples. *)

(** The program refuses every submission with code 6001. *)
Definition program_refusal : thrown :=
  {| code := Some (CodeNumber 6001);
     message := Some "AnchorError: custom program error: 0x1771";
     instanceofError := true;
     String_ := "Error: AnchorError: custom program error: 0x1771" |}.

Definition refusing_chain : Chain :=
  {| clock_ms := fun _ => 1700000000000;
     state_account := fun _ => Ok {| owner := admin |};
     qualityInfo_account := fun _ => Ok (quality_info []);
     subscription_account := fun _ => Err account_not_found;
     subscribersList_account := fun _ => Err account_not_found;
     subscription_accounts := Ok [];
     send := fun _ => Err program_refusal |}.

(** No quality record and no state account; submissions are accepted. *)
Definition stateless_chain : Chain :=
  {| clock_ms := fun _ => 1700000000000;
     state_account := fun _ => Err account_not_found;
     qualityInfo_account := fun _ => Err account_not_found;
     subscription_account := fun _ => Err account_not_found;
     subscribersList_account := fun _ => Err account_not_found;
     subscription_accounts := Ok [];
     send := fun _ => Ok "tx-init" |}.

(** No quality record yet; the state account is there and submissions are
    accepted, the initialize one as ["tx-init"], the others as ["tx-renew"]. *)
Definition first_renewal_chain : Chain :=
  {| clock_ms := fun _ => 1700000000000;
     state_account := fun _ => Ok {| owner := admin |};
     qualityInfo_account := fun _ => Err account_not_found;
     subscription_account := fun _ => Err account_not_found;
     subscribersList_account := fun _ => Err account_not_found;
     subscription_accounts := Ok [];
     send := fun ix =>
       match ix with
       | methods.initializeQualityInfo _ => Ok "tx-init"
       | _ => Ok "tx-renew"
       end |}.

(** [three_chain] with a clock that moves on by one second after its third
    reading. *)
Definition ticking_chain : Chain :=
  {| clock_ms := fun i => if (i <? 3)%nat then 1700604799000
                          else 1700604800000;
     state_account := state_account three_chain;
     qualityInfo_account := qualityInfo_account three_chain;
     subscription_account := subscription_account three_chain;
     subscribersList_account := subscribersList_account three_chain;
     subscription_accounts := subscription_accounts three_chain;
     send := send three_chain |}.

(** What [getAllSubscriptionsForUser] returns on [ticking_chain]: the record
    ending at 1700604800 passes the filter at 1700604799 and is classified at
    1700604800. *)
Definition ticking_listed : list SubscriptionStatus :=
  [ {| subscription := {| endTime := 1700604800; recipient := "alice" |};
       subscriptionPDA_of := subscriptionPDA (demo_pdas provider1 alice);
       status_of := expired |};
    {| subscription := {| endTime := 1700604801; recipient := "bob" |};
       subscriptionPDA_of := subscriptionPDA (demo_pdas provider1 bob);
       status_of := expiring_soon |} ].

(** Values outside the 53-bit range, and a thrown plain object. *)

(** [throw { message: "plain object" }]: no code, not an [Error]. *)
Definition plain_object : thrown :=
  {| code := None;
     message := Some "plain object";
     instanceofError := false;
     String_ := "[object Object]" |}.

(** An end time of 2^53 seconds, classified on [three_chain]. *)
Definition far_status_run : run_result nat status :=
  run (chain_world three_chain) (getSubscriptionStatus 9007199254740992) 0%nat.

(** A subscription for 10^12 days, created on [three_chain]. *)
Definition overlong_create : CreateSubscriptionParams.t :=
  {| CreateSubscriptionParams.dataProvider := provider1;
     CreateSubscriptionParams.recipient := "alice";
     CreateSubscriptionParams.durationInDays := 1000000000000;
     CreateSubscriptionParams.nftTokenAccount := [x77] |}.

Definition overlong_create_run : run_result nat TransactionSignature :=
  run (chain_world three_chain)
      (createSubscription (web3 := demo_web3) demo_adapter overlong_create)
      0%nat.

(** A renewal until 2^53 seconds. *)
Definition overlong_renew : RenewParams.t :=
  {| RenewParams.dataProvider := provider1;
     RenewParams.newRecipient := "alice";
     RenewParams.newEndTime := 9007199254740992;
     RenewParams.qualityScore := 90;
     RenewParams.nftTokenAccount := [x77] |}.

(** * Properties *)

(** ** Running composite programs *)

Lemma run_bind (S A B : Type) (w : World S) (p : Prog A) (f : A -> Prog B)
      (s : S) :
  run w (bind p f) s =
  match final (run w p s) with
  | Resolved a =>
      let r2 := run w (f a) (state_after (run w p s)) in
      {| final := final r2;
         trace := trace (run w p s) ++ trace r2;
         state_after := state_after r2 |}
  | Rejected e =>
      {| final := Rejected e;
         trace := trace (run w p s);
         state_after := state_after (run w p s) |}
  end.
Proof.
  revert s; induction p as [a | e | R c k IH]; intros s; simpl.
  - destruct (run w (f a) s); reflexivity.
  - reflexivity.
  - destruct (respond w c s) as [r s']; simpl.
    rewrite IH.
    destruct (final (run w (k r) s')); reflexivity.
Qed.

Lemma run_try_catch (S A : Type) (w : World S) (p : Prog A)
      (h : thrown -> Prog A) (s : S) :
  run w (try_catch p h) s =
  match final (run w p s) with
  | Resolved a =>
      {| final := Resolved a;
         trace := trace (run w p s);
         state_after := state_after (run w p s) |}
  | Rejected e =>
      let r2 := run w (h e) (state_after (run w p s)) in
      {| final := final r2;
         trace := trace (run w p s) ++ trace r2;
         state_after := state_after r2 |}
  end.
Proof.
  revert s; induction p as [a | e | R c k IH]; intros s; simpl.
  - reflexivity.
  - destruct (run w (h e) s); reflexivity.
  - destruct (respond w c s) as [r s']; simpl.
    rewrite IH.
    destruct (final (run w (k r) s')); reflexivity.
Qed.

(** ** The status classifier *)

Lemma days_le_7 (d : Z) :
  Qle_bool (inject_Z d / inject_Z (24 * 60 * 60)) (inject_Z 7) = true
  <-> d <= 604800.
Proof.
  rewrite Qle_bool_iff.
  unfold Qle, Qdiv, Qmult, Qinv, inject_Z; simpl.
  lia.
Qed.

Lemma classify_expired (endTime now : Z) :
  classify endTime now = expired <-> endTime <= now.
Proof.
  unfold classify.
  destruct (Z.leb_spec endTime now) as [Hle | Hgt].
  - tauto.
  - destruct (Qle_bool _ _); split; intros H; try discriminate; lia.
Qed.

Lemma classify_expiring_soon (endTime now : Z) :
  classify endTime now = expiring_soon <-> 0 < endTime - now <= 604800.
Proof.
  unfold classify.
  destruct (Z.leb_spec endTime now) as [Hle | Hgt].
  - split; intros H; [discriminate | lia].
  - destruct (Qle_bool _ _) eqn:Hq.
    + apply days_le_7 in Hq. split; intros _; [lia | reflexivity].
    + split; intros H; [discriminate |].
      assert (Hd : endTime - now <= 604800) by lia.
      apply days_le_7 in Hd. congruence.
Qed.

Lemma classify_active (endTime now : Z) :
  classify endTime now = active <-> endTime - now > 604800.
Proof.
  unfold classify.
  destruct (Z.leb_spec endTime now) as [Hle | Hgt].
  - split; intros H; [discriminate | lia].
  - destruct (Qle_bool _ _) eqn:Hq.
    + apply days_le_7 in Hq. split; intros H; [discriminate | lia].
    + split; intros _; [| reflexivity].
      destruct (Z_le_gt_dec (endTime - now) 604800) as [Hd | Hd]; [| lia].
      apply days_le_7 in Hd. congruence.
Qed.

Lemma BN_of_number_safe (n : Z) :
  Z.abs n < 9007199254740992 -> BN_of_number n = Ok n.
Proof.
  intros H. unfold BN_of_number.
  destruct (Z.ltb_spec (Z.abs n) 9007199254740992); [reflexivity | lia].
Qed.

Lemma BN_of_number_unsafe (n : Z) :
  9007199254740992 <= Z.abs n ->
  BN_of_number n = Err (newError "Assertion failed").
Proof.
  intros H. unfold BN_of_number.
  destruct (Z.ltb_spec (Z.abs n) 9007199254740992); [lia | reflexivity].
Qed.

Lemma BN_of_number_Ok (n m : Z) :
  BN_of_number n = Ok m -> m = n /\ Z.abs n < 9007199254740992.
Proof.
  unfold BN_of_number.
  destruct (Z.ltb_spec (Z.abs n) 9007199254740992) as [Hlt | Hge]; intros H;
    [injection H as <-; split; [reflexivity | assumption] | discriminate H].
Qed.

Lemma BN_toNumber_safe (b : Z) :
  Z.abs b < 9007199254740992 -> BN_toNumber b = Ok b.
Proof.
  intros H. unfold BN_toNumber.
  destruct (Z.ltb_spec (Z.abs b) 9007199254740992); [reflexivity | lia].
Qed.

Lemma BN_toNumber_unsafe (b : Z) :
  9007199254740992 <= Z.abs b ->
  BN_toNumber b
  = Err (newError "Number can only safely store up to 53 bits").
Proof.
  intros H. unfold BN_toNumber.
  destruct (Z.ltb_spec (Z.abs b) 9007199254740992); [lia | reflexivity].
Qed.

Lemma getSubscriptionStatus_run (S : Type) (w : World S) (s : S)
      (endTime : Z) :
  run w (getSubscriptionStatus endTime) s
  = {| final := match BN_toNumber endTime with
                | Ok endTimeSeconds =>
                    Resolved (classify endTimeSeconds
                                       (seconds (fst (respond w Date_now s))))
                | Err e => Rejected e
                end;
       trace := [Event Date_now (fst (respond w Date_now s))];
       state_after := snd (respond w Date_now s) |}.
Proof.
  unfold getSubscriptionStatus, perform; simpl.
  destruct (respond w Date_now s) as [ms s']; simpl.
  destruct (BN_toNumber endTime); reflexivity.
Qed.

(** C2 (amended). For an end time of at most 53 bits and the clock reading
    [now] (in seconds) that [getSubscriptionStatus] makes, it returns
    ['expired'] exactly when [endTime <= now], ['expiring_soon'] exactly when
    [0 < endTime - now <= 604800], and ['active'] exactly when
    [endTime - now > 604800]; an end time of [now + 604800] is expiring soon
    and one of [now + 604801] is active, when they have at most 53 bits.  On
    an end time of more than 53 bits it returns no status: [toNumber]
    throws. *)
Theorem getSubscriptionStatus_thresholds :
  forall (S : Type) (w : World S) (s : S) (endTime : Z),
    let now := seconds (fst (respond w Date_now s)) in
    let returned e := final (run w (getSubscriptionStatus e) s) in
    Z.abs endTime < 9007199254740992 ->
    (returned endTime = Resolved expired <-> endTime <= now) /\
    (returned endTime = Resolved expiring_soon
     <-> 0 < endTime - now <= 604800) /\
    (returned endTime = Resolved active <-> endTime - now > 604800) /\
    (Z.abs (now + 604800) < 9007199254740992 ->
     returned (now + 604800) = Resolved expiring_soon) /\
    (Z.abs (now + 604801) < 9007199254740992 ->
     returned (now + 604801) = Resolved active) /\
    (forall big, 9007199254740992 <= Z.abs big ->
                 returned big
                 = Rejected
                     (newError "Number can only safely store up to 53 bits")).
Proof.
  intros S w s endTime now returned Hsafe.
  assert (Hret : forall e, Z.abs e < 9007199254740992 ->
                           returned e = Resolved (classify e now)).
  { intros e He. subst returned. cbv beta.
    rewrite getSubscriptionStatus_run. cbn [final].
    now rewrite BN_toNumber_safe by exact He. }
  assert (Hinj : forall a b : status, Resolved a = Resolved b <-> a = b)
    by (intros a b; split; intros H; [injection H; auto | subst; auto]).
  rewrite (Hret endTime Hsafe), !Hinj.
  rewrite classify_expired, classify_expiring_soon, classify_active.
  split; [tauto |]. split; [tauto |]. split; [tauto |].
  split; [| split].
  - intros H. rewrite (Hret _ H). f_equal.
    apply classify_expiring_soon. clearbody now. lia.
  - intros H. rewrite (Hret _ H). f_equal.
    apply classify_active. clearbody now. lia.
  - intros big Hbig. subst returned. cbv beta.
    rewrite getSubscriptionStatus_run. cbn [final].
    now rewrite BN_toNumber_unsafe by exact Hbig.
Qed.

(** ** The error translator *)

Lemma handleError_known (error : thrown) (k : error_kind) :
  code error = Some (CodeNumber (kind_code k)) ->
  handleError error = newError (kind_message k).
Proof.
  intros Hc. unfold handleError. rewrite Hc.
  destruct k; reflexivity.
Qed.

Lemma handleError_other_code (error : thrown) (c : js_code) :
  code error = Some c ->
  ~ known_code c ->
  handleError error
  = newError ("Unknown error: " ++ message_text error)%string.
Proof.
  intros Hc Hk. unfold handleError. rewrite Hc.
  destruct c as [n | str]; [| reflexivity].
  repeat match goal with
  | |- context [n =? ?v] =>
      destruct (Z.eqb_spec n v) as [-> | _];
      [ exfalso; apply Hk |]
  end; try reflexivity.
  - exists PeriodTooShort; reflexivity.
  - exists AlreadySubscribed; reflexivity.
  - exists InsufficientPayment; reflexivity.
  - exists InvalidNFTHolder; reflexivity.
  - exists SubscriptionNotFound; reflexivity.
  - exists QualityOutOfRange; reflexivity.
  - exists SubscriptionAlreadyEnded; reflexivity.
  - exists ActiveSubscription; reflexivity.
  - exists NotOwner; reflexivity.
Qed.

(** The four cases of [handleError] on a value that is not [null] or
    [undefined]. *)
Lemma handleError_translation :
  forall error : thrown,
    map kind_code all_kinds
    = [6000; 6001; 6002; 6003; 6004; 6005; 6006; 6007; 6008] /\
    (forall k, code error = Some (CodeNumber (kind_code k)) ->
               handleError error = newError (kind_message k)) /\
    (forall c, code error = Some c -> ~ known_code c ->
               handleError error
               = newError ("Unknown error: " ++ message_text error)%string) /\
    (code error = None -> instanceofError error = true ->
     handleError error = error) /\
    (code error = None -> instanceofError error = false ->
     handleError error = newError (String_ error)).
Proof.
  intros error. split; [reflexivity |]. split; [| split; [| split]].
  - intros k. apply handleError_known.
  - intros c. apply handleError_other_code.
  - intros Hc Hi. unfold handleError. rewrite Hc, Hi. reflexivity.
  - intros Hc Hi. unfold handleError. rewrite Hc, Hi. reflexivity.
Qed.

(** C3 (amended). On [null] and [undefined], [handleError] throws a
    [TypeError].  On every other value it returns: for a value carrying one
    of the nine numeric codes 6000 to 6008, the error named for that kind;
    for a value carrying any other code, a new error whose message is
    ["Unknown error: "] followed by the original message; for a value
    without a code that is an [Error], that very value, unchanged and not
    wrapped, so its message is kept; for any other value without a code, a
    new error whose message is the string conversion of the value, which
    need not contain its [message] property. *)
Theorem handleError_any_translation :
  forall error : js_any,
    match error with
    | js_null | js_undefined =>
        exists t, handleError_any error = throws t /\
                  instanceofError t = true
    | js_value v =>
        exists r,
          handleError_any error = returns r /\
          (forall k, code v = Some (CodeNumber (kind_code k)) ->
                     r = newError (kind_message k)) /\
          (forall c, code v = Some c -> ~ known_code c ->
                     r = newError ("Unknown error: " ++ message_text v)%string
                     /\ message r
                        = Some ("Unknown error: " ++ message_text v)%string) /\
          (code v = None -> instanceofError v = true ->
           r = v /\ message r = message v) /\
          (code v = None -> instanceofError v = false ->
           r = newError (String_ v) /\ message r = Some (String_ v))
    end.
Proof.
  intros [| | v].
  - eexists. split; reflexivity.
  - eexists. split; reflexivity.
  - exists (handleError v).
    destruct (handleError_translation v) as [_ [Hk [Ho [He Hn]]]].
    split; [reflexivity |]. split; [exact Hk |].
    split; [| split].
    + intros c Hc Hu. rewrite (Ho c Hc Hu). split; reflexivity.
    + intros Hc Hi. rewrite (He Hc Hi). split; reflexivity.
    + intros Hc Hi. rewrite (Hn Hc Hi). split; reflexivity.
Qed.

(** ** Address derivation *)

Section AddressFacts.
Context {web3 : Web3}.
Variable this : FxnSolanaAdapter.

(** C7. [getProgramAddresses] is a function of its inputs: equal providers
    and subscribers give equal addresses.  The state address is derived from
    the tag ["storage"] and the program identifier alone, hence is the same
    for every pair; the subscription address from the tag ["subscription"],
    the subscriber and the provider, in this order; the quality and the
    subscribers-list addresses from their tag and the provider only, hence do
    not vary with the subscriber. *)
Theorem getProgramAddresses_derivation :
  forall dataProvider subscriber : PublicKey,
    let pdas := getProgramAddresses this dataProvider subscriber in
    let derive seeds := fst (findProgramAddressSync seeds (programId this)) in
    (forall dataProvider' subscriber',
        dataProvider' = dataProvider -> subscriber' = subscriber ->
        getProgramAddresses this dataProvider' subscriber' = pdas) /\
    statePDA pdas = derive [Buffer_from "storage"] /\
    qualityPDA pdas = derive [Buffer_from "quality"; toBuffer dataProvider] /\
    subscriptionPDA pdas
    = derive [Buffer_from "subscription"; toBuffer subscriber;
              toBuffer dataProvider] /\
    subscribersListPDA pdas
    = derive [Buffer_from "subscribers"; toBuffer dataProvider] /\
    (forall dataProvider' subscriber',
        statePDA (getProgramAddresses this dataProvider' subscriber')
        = statePDA pdas) /\
    (forall subscriber',
        qualityPDA (getProgramAddresses this dataProvider subscriber')
        = qualityPDA pdas /\
        subscribersListPDA (getProgramAddresses this dataProvider subscriber')
        = subscribersListPDA pdas).
Proof.
  intros dataProvider subscriber pdas derive.
  repeat split.
  intros dataProvider' subscriber' -> ->. reflexivity.
Qed.

End AddressFacts.

(** ** Reading the subscribers list *)

Section ReadFacts.
Context {web3 : Web3}.
Variable this : FxnSolanaAdapter.

Lemma getAgentSubscribers_run (S : Type) (w : World S) (s : S)
      (agentAddress : PublicKey) :
  let pda := fst (findProgramAddressSync
                    [Buffer_from "subscribers"; toBuffer agentAddress]
                    (programId this)) in
  let answer := respond w (subscribersList_fetch pda) s in
  run w (getAgentSubscribers this agentAddress) s
  = {| final := Resolved match fst answer with
                         | Ok l => subscribers l
                         | Err _ => []
                         end;
       trace := [Event (subscribersList_fetch pda) (fst answer)];
       state_after := snd answer |}.
Proof.
  intros pda answer. subst answer.
  unfold getAgentSubscribers, await; simpl. fold pda.
  destruct (respond w (subscribersList_fetch pda) s) as [[l | e] s'];
    reflexivity.
Qed.

(** C6. When the subscribers-list account of the provider cannot be fetched,
    [getAgentSubscribers] resolves to the empty array instead of rejecting;
    when it can, [getAgentSubscribers] resolves to the [subscribers] of the
    account.  It never rejects. *)
Theorem getAgentSubscribers_empty_when_missing :
  forall (S : Type) (w : World S) (s : S) (agentAddress : PublicKey),
    let pda := fst (findProgramAddressSync
                      [Buffer_from "subscribers"; toBuffer agentAddress]
                      (programId this)) in
    let fetched := fst (respond w (subscribersList_fetch pda) s) in
    let returned := final (run w (getAgentSubscribers this agentAddress) s) in
    (forall e, fetched = Err e -> returned = Resolved []) /\
    (forall l, fetched = Ok l -> returned = Resolved (subscribers l)) /\
    (forall e, returned <> Rejected e).
Proof.
  intros S w s agentAddress pda fetched returned.
  subst returned. rewrite getAgentSubscribers_run. simpl. fold pda fetched.
  repeat split.
  - intros e ->. reflexivity.
  - intros l ->. reflexivity.
  - intros e. discriminate.
Qed.

(** ** Counting active subscriptions *)

Section CountFacts.
Variable ch : Chain.
Variable agentAddress : PublicKey.
Variable now : Z.
Hypothesis clock_fixed : forall i, seconds (clock_ms ch i) = now.

Lemma count_step_run (subscriber : PublicKey) (activeCount n : nat) :
  final (run (chain_world ch)
             (count_step this agentAddress subscriber activeCount) n)
  = Resolved (if fetched_and_active this ch agentAddress now subscriber
              then S activeCount else activeCount).
Proof.
  unfold count_step, fetched_and_active, await, perform; simpl.
  destruct (subscription_account ch _) as [sub | e]; simpl.
  - rewrite clock_fixed, Z.gtb_ltb.
    destruct (now <? endTime sub); reflexivity.
  - reflexivity.
Qed.

Lemma count_loop_run (subscribers : list PublicKey) :
  forall (activeCount n : nat),
    final (run (chain_world ch)
               (count_loop this agentAddress subscribers activeCount) n)
    = Resolved
        (activeCount
         + List.length
             (filter (fetched_and_active this ch agentAddress now)
                     subscribers))%nat.
Proof.
  induction subscribers as [| subscriber rest IH]; intros activeCount n.
  - simpl. f_equal. lia.
  - cbn [count_loop filter].
    rewrite run_bind, count_step_run. cbn [final].
    rewrite IH.
    destruct (fetched_and_active this ch agentAddress now subscriber);
      cbn [List.length]; f_equal; lia.
Qed.

Lemma getActiveSubscriptionsForAgent_run (n : nat) :
  final (run (chain_world ch)
             (getActiveSubscriptionsForAgent this agentAddress) n)
  = Resolved
      (List.length
         (filter (fetched_and_active this ch agentAddress now)
                 (listed_subscribers this ch agentAddress))).
Proof.
  unfold getActiveSubscriptionsForAgent.
  rewrite run_try_catch, run_bind, getAgentSubscribers_run.
  cbn [final state_after].
  rewrite count_loop_run. reflexivity.
Qed.

End CountFacts.

(** C5. On a chain whose clock reads [now] seconds,
    [getActiveSubscriptionsForAgent] resolves to the number of entries of
    the agent's subscribers list whose subscription record can be fetched
    and has [endTime > now]; an entry whose record cannot be fetched adds
    nothing and does not make the call reject. *)
Theorem getActiveSubscriptionsForAgent_counts :
  forall (ch : Chain) (agentAddress : PublicKey) (now : Z) (n : nat),
    (forall i, seconds (clock_ms ch i) = now) ->
    final (run (chain_world ch)
               (getActiveSubscriptionsForAgent this agentAddress) n)
    = Resolved
        (List.length
           (filter (fun subscriber =>
                      match subscription_account ch
                              (subscriptionPDA
                                 (getProgramAddresses this agentAddress
                                                      subscriber)) with
                      | Ok sub => now <? endTime sub
                      | Err _ => false
                      end)
                   (listed_subscribers this ch agentAddress))).
Proof.
  intros ch agentAddress now n Hclock.
  exact (getActiveSubscriptionsForAgent_run ch agentAddress Hclock n).
Qed.

End ReadFacts.

(** ** Listing subscriptions *)

Section ListFacts.
Variable S : Type.
Variable w : World S.

Lemma clock_then_run (A : Type) (g : Z -> A) (s : S) :
  run w (ms <- perform Date_now ;; Return (g ms)) s
  = {| final := Resolved (g (fst (respond w Date_now s)));
       trace := [Event Date_now (fst (respond w Date_now s))];
       state_after := snd (respond w Date_now s) |}.
Proof.
  unfold perform; simpl.
  destruct (respond w Date_now s) as [ms s']; reflexivity.
Qed.

Lemma status_then_run (A : Type) (g : status -> A) (endTime : Z) (s : S) :
  run w (st <- getSubscriptionStatus endTime ;; Return (g st)) s
  = {| final :=
         if fits_53_bits endTime
         then Resolved
                (g (classify endTime (seconds (fst (respond w Date_now s)))))
         else Rejected toNumber_refusal;
       trace := [Event Date_now (fst (respond w Date_now s))];
       state_after := snd (respond w Date_now s) |}.
Proof.
  unfold getSubscriptionStatus, perform, BN_toNumber, fits_53_bits; simpl.
  destruct (respond w Date_now s) as [ms s']; simpl.
  destruct (Z.abs endTime <? 9007199254740992); reflexivity.
Qed.

Variable now : Z.
Hypothesis clock_fixed : forall s, seconds (fst (respond w Date_now s)) = now.

Lemma filter_pass_run (accounts : list ProgramAccount) :
  forall s,
    final (run w
             (filterP (fun acc =>
                         ms <- perform Date_now ;;
                         Return (endTime (account acc) >? seconds ms))
                      accounts) s)
    = Resolved (filter (fun acc => endTime (account acc) >? now) accounts).
Proof.
  induction accounts as [| acc rest IH]; intros s.
  - reflexivity.
  - cbn [filterP filter].
    rewrite run_bind, clock_then_run. cbn [final state_after].
    rewrite clock_fixed.
    rewrite run_bind, IH. cbn [final].
    destruct (endTime (account acc) >? now); reflexivity.
Qed.

Lemma map_pass_run (accounts : list ProgramAccount) :
  forall s,
    final (run w
             (mapP (fun acc =>
                      st <- getSubscriptionStatus (endTime (account acc)) ;;
                      Return {| subscription := account acc;
                                subscriptionPDA_of := publicKey acc;
                                status_of := st |})
                   accounts) s)
    = if forallb (fun acc => fits_53_bits (endTime (account acc))) accounts
      then Resolved (map (listed now) accounts)
      else Rejected toNumber_refusal.
Proof.
  induction accounts as [| acc rest IH]; intros s.
  - reflexivity.
  - cbn [mapP map forallb].
    rewrite run_bind, status_then_run.
    destruct (fits_53_bits (endTime (account acc))); [| reflexivity].
    cbn [final state_after andb].
    rewrite clock_fixed.
    rewrite run_bind, IH.
    destruct (forallb _ rest); reflexivity.
Qed.

Lemma getAllSubscriptionsForUser_run (userPublicKey : PublicKey) (s : S) :
  final (run w (getAllSubscriptionsForUser userPublicKey) s)
  = match fst (respond w subscription_all s) with
    | Ok accounts =>
        let kept :=
          filter (fun acc => endTime (account acc) >? now) accounts in
        if forallb (fun acc => fits_53_bits (endTime (account acc))) kept
        then Resolved (map (listed now) kept)
        else Rejected toNumber_refusal
    | Err e => Rejected (handleError e)
    end.
Proof.
  unfold getAllSubscriptionsForUser, await.
  rewrite run_try_catch. simpl.
  destruct (respond w subscription_all s) as [[accounts | e] s']; simpl.
  - rewrite run_bind, filter_pass_run. cbn [final].
    rewrite run_bind, map_pass_run.
    destruct (forallb _ _); reflexivity.
  - reflexivity.
Qed.

End ListFacts.

(** C9. [getAllSubscriptionsForUser] does not look at its argument: in the
    same world and from the same state, the runs for any two user keys are
    the same, answer and trace alike. *)
Theorem getAllSubscriptionsForUser_ignores_user :
  forall (S : Type) (w : World S) (s : S) (user1 user2 : PublicKey),
    run w (getAllSubscriptionsForUser user1) s
    = run w (getAllSubscriptionsForUser user2) s.
Proof.
  intros S w s user1 user2.
  unfold getAllSubscriptionsForUser. reflexivity.
Qed.

(** C10. In a world whose clock reads [now] seconds at every reading, every
    record [getAllSubscriptionsForUser] returns has [endTime > now], and its
    status is ['active'] or ['expiring_soon'], never ['expired']. *)
Theorem getAllSubscriptionsForUser_never_expired :
  forall (S : Type) (w : World S) (now : Z) (user : PublicKey) (s : S)
         (returned : list SubscriptionStatus),
    (forall s', seconds (fst (respond w Date_now s')) = now) ->
    final (run w (getAllSubscriptionsForUser user) s) = Resolved returned ->
    Forall (fun r =>
              endTime (subscription r) > now /\
              (status_of r = active \/ status_of r = expiring_soon) /\
              status_of r <> expired)
           returned.
Proof.
  intros S w now user s returned Hclock Hrun.
  rewrite (getAllSubscriptionsForUser_run w Hclock) in Hrun.
  destruct (fst (respond w subscription_all s)) as [accounts | e];
    [| discriminate].
  cbv zeta in Hrun.
  destruct (forallb _ _); [| discriminate].
  injection Hrun as <-.
  apply Forall_forall. intros r Hin.
  apply in_map_iff in Hin. destruct Hin as [acc [<- Hin]].
  apply filter_In in Hin. destruct Hin as [_ Hgt].
  apply Z.gtb_lt in Hgt. unfold listed; cbn [subscription status_of].
  assert (Hne : classify (endTime (account acc)) now <> expired)
    by (rewrite classify_expired; lia).
  split; [lia |]. split; [| exact Hne].
  destruct (classify (endTime (account acc)) now); auto; congruence.
Qed.

(** ** Transitions *)

(** Case analysis on the answer of the next call of a run. *)
Ltac answer :=
  match goal with
  | |- context [respond ?w ?c ?s] =>
      let r := fresh "r" in
      let s' := fresh "s" in
      destruct (respond w c s) as [r s'];
      try destruct r; cbn [fst snd]; simpl
  | |- context [BN_of_number ?n] =>
      destruct (BN_of_number n); simpl
  end.

Section TransitionFacts.
Context {web3 : Web3}.
Variable this : FxnSolanaAdapter.

(** C4. With a connected wallet, a run of [renewSubscription] starts with the
    fetch of the quality record.  When that fetch fails, exactly one
    [initializeQualityInfo] is submitted, right after it and before anything
    else; when the fetch succeeds, no [initializeQualityInfo] is submitted.
    The second step, the fetch of the state account followed, when it
    succeeds (and the new end time has at most 53 bits), by the
    [renewSubscription] submission, comes after the record is known to be
    there or the initialize submission has been accepted; when the
    initialize submission fails, the run ends there: the call rejects with
    the translated failure and no [renewSubscription] is submitted. *)
Theorem renewSubscription_two_step :
  forall (S : Type) (w : World S) (s : S) (params : RenewParams.t)
         (subscriber : PublicKey),
    wallet_publicKey this = Some subscriber ->
    let pdas :=
      getProgramAddresses this (RenewParams.dataProvider params) subscriber in
    let probe := qualityInfo_fetch (qualityPDA pdas) in
    let init :=
      rpc (methods.initializeQualityInfo
             (initialize_accounts params subscriber pdas)) in
    let fetch_state := state_fetch (statePDA pdas) in
    let renew state :=
      rpc (methods.renewSubscription
             (RenewParams.newRecipient params)
             (RenewParams.newEndTime params)
             (RenewParams.qualityScore params)
             (renew_accounts params subscriber pdas state)) in
    let second_step s' :=
      match fst (respond w fetch_state s') with
      | Ok state =>
          if fits_53_bits (RenewParams.newEndTime params)
          then [ Event fetch_state (Ok state);
                 Event (renew state)
                       (fst (respond w (renew state)
                                     (snd (respond w fetch_state s')))) ]
          else [Event fetch_state (Ok state)]
      | Err e => [Event fetch_state (Err e)]
      end in
    let r := run w (renewSubscription this params) s in
    match fst (respond w probe s) with
    | Ok quality =>
        trace r
        = Event probe (Ok quality) :: second_step (snd (respond w probe s)) /\
        count_events is_initialize (trace r) = 0%nat
    | Err e0 =>
        let s1 := snd (respond w probe s) in
        match fst (respond w init s1) with
        | Ok txInit =>
            trace r
            = Event probe (Err e0) :: Event init (Ok txInit)
              :: second_step (snd (respond w init s1)) /\
            count_events is_initialize (trace r) = 1%nat /\
            one_initialize_first (trace r)
        | Err e =>
            trace r = [Event probe (Err e0); Event init (Err e)] /\
            count_events is_initialize (trace r) = 1%nat /\
            count_events is_renew (trace r) = 0%nat /\
            final r = Rejected (handleError e)
        end
    end.
Proof.
  intros S w s params subscriber Hwallet
         pdas probe init fetch_state renew second_step r.
  subst r second_step renew fetch_state init probe pdas.
  unfold renewSubscription, await, BN_of_number, fits_53_bits.
  rewrite Hwallet. simpl.
  destruct (respond w (qualityInfo_fetch _) s) as [[quality | e0] s1]; simpl.
  - destruct (respond w (state_fetch _) s1) as [[state | e] s2]; simpl.
    + destruct (Z.abs (RenewParams.newEndTime params) <? 9007199254740992);
        simpl; [| split; reflexivity].
      destruct (respond w (rpc _) s2) as [[txHash | e] s3]; simpl;
        split; reflexivity.
    + split; reflexivity.
  - destruct (respond w (rpc (methods.initializeQualityInfo _)) s1)
      as [[txInit | e] s2]; simpl.
    + destruct (respond w (state_fetch _) s2) as [[state | e] s3]; simpl.
      * destruct (Z.abs (RenewParams.newEndTime params) <? 9007199254740992);
          simpl;
          [ destruct (respond w (rpc _) s3) as [[txHash | e] s4]; simpl |];
          (split; [reflexivity |]); (split; [reflexivity |]);
          (eexists [_], _, _; split; [reflexivity |]); repeat split.
      * (split; [reflexivity |]); (split; [reflexivity |]).
        eexists [_], _, _; split; [reflexivity |]; repeat split.
    + repeat split.
Qed.

(** C1 (amended). In a run of [renewSubscription], a failure of the
    [initializeQualityInfo] submission, whatever the error, is translated by
    [handleError] and rejects the call; no [renewSubscription] is
    submitted. *)
Theorem renewSubscription_initialize_failure_propagates :
  forall (S : Type) (w : World S) (s : S) (params : RenewParams.t)
         (e : thrown),
    In (Some e)
       (map initialize_failure
            (trace (run w (renewSubscription this params) s))) ->
    final (run w (renewSubscription this params) s)
    = Rejected (handleError e) /\
    existsb is_renew (trace (run w (renewSubscription this params) s)) = false.
Proof.
  intros S w s params e.
  unfold renewSubscription, await.
  destruct (wallet_publicKey this) as [subscriber |]; simpl.
  2: { intros []. }
  repeat answer; intros H; simpl in H;
    repeat match type of H with
           | _ \/ _ => destruct H as [H | H]
           | False => destruct H
           | None = Some _ => discriminate H
           | Some _ = Some _ => injection H as <-
           end;
    split; reflexivity.
Qed.

(** C8 (amended). With a connected wallet, a state account that can be
    fetched and a whole number of days for which [durationInDays * 86400] and
    the end time have at most 53 bits, a run of [createSubscription] is: the
    fetch of the state account, one clock reading, and one [subscribe]
    submission whose end time is the clock reading in seconds plus
    [durationInDays * 86400], bound to
    the state, subscription and subscribers-list addresses (not the quality
    address), the subscriber, the provider, the owner read from the state
    account, the system and token programs and the NFT token account.  The
    call resolves to the transaction signature when the submission succeeds
    and rejects with the translated error when it fails. *)
Theorem createSubscription_submits_subscribe :
  forall (S : Type) (w : World S) (s s1 : S)
         (params : CreateSubscriptionParams.t) (subscriber : PublicKey)
         (state : StateAccount),
    let pdas :=
      getProgramAddresses
        this (CreateSubscriptionParams.dataProvider params) subscriber in
    let ms := fst (respond w Date_now s1) in
    let ix :=
      methods.subscribe
        (CreateSubscriptionParams.recipient params)
        (seconds ms + CreateSubscriptionParams.durationInDays params * 86400)
        [ ("state", statePDA pdas);
          ("subscriber", subscriber);
          ("dataProvider", CreateSubscriptionParams.dataProvider params);
          ("subscription", subscriptionPDA pdas);
          ("subscribersList", subscribersListPDA pdas);
          ("owner", owner state);
          ("systemProgram", SystemProgram_programId);
          ("tokenProgram", TOKEN_PROGRAM_ID);
          ("nftTokenAccount", CreateSubscriptionParams.nftTokenAccount params)
        ] in
    let submission := fst (respond w (rpc ix) (snd (respond w Date_now s1))) in
    let r := run w (createSubscription this params) s in
    wallet_publicKey this = Some subscriber ->
    respond w (state_fetch (statePDA pdas)) s = (Ok state, s1) ->
    Z.abs (CreateSubscriptionParams.durationInDays params * 86400)
    < 9007199254740992 ->
    Z.abs (seconds ms + CreateSubscriptionParams.durationInDays params * 86400)
    < 9007199254740992 ->
    trace r = [ Event (state_fetch (statePDA pdas)) (Ok state);
                Event Date_now ms;
                Event (rpc ix) submission ] /\
    count_events is_subscribe (trace r) = 1%nat /\
    (forall txHash, submission = Ok txHash -> final r = Resolved txHash) /\
    (forall e, submission = Err e -> final r = Rejected (handleError e)).
Proof.
  intros S w s s1 params subscriber state pdas ms ix submission r
         Hwallet Hstate _ Hsafe.
  subst r submission ix ms pdas.
  unfold createSubscription, await, perform. rewrite Hwallet.
  unfold subscribe_accounts.
  replace (CreateSubscriptionParams.durationInDays params * 86400)
    with (CreateSubscriptionParams.durationInDays params * 24 * 60 * 60)
    in * by lia.
  simpl in Hstate |- *. rewrite Hstate. simpl.
  destruct (respond w Date_now s1) as [ms s2]. simpl in Hsafe |- *.
  rewrite BN_of_number_safe by exact Hsafe. simpl.
  match goal with
  | |- context [respond w (rpc ?i) s2] =>
      destruct (respond w (rpc i) s2) as [[txHash | e] s3]
  end; simpl; repeat split; intros ? H; inversion H; reflexivity.
Qed.

End TransitionFacts.

(** ** The statements at concrete worlds *)

(** C1, as stated, fails on [race_chain]: the quality fetch fails, the
    initialize submission is refused because the account already exists, and
    the call rejects with the translation of that very error without
    submitting the renew transition. *)
Lemma renewSubscription_already_exists_not_swallowed :
  existsb quality_fetch_failed (trace race_run) = true /\
  In (Some account_already_exists) (map initialize_failure (trace race_run)) /\
  final race_run = Rejected (handleError account_already_exists) /\
  existsb is_renew (trace race_run) = false /\
  ~ initialize_failure_swallowed race_run account_already_exists.
Proof.
  split; [reflexivity |].
  split; [right; left; reflexivity |].
  split; [reflexivity |].
  split; [reflexivity |].
  intros [Hrenew _]. discriminate Hrenew.
Qed.

(** The refused initialize submission of [race_run] rejects the call. *)
Lemma renewSubscription_initialize_failure_propagates_witness :
  In (Some account_already_exists) (map initialize_failure (trace race_run)) /\
  final race_run = Rejected (handleError account_already_exists) /\
  existsb is_renew (trace race_run) = false.
Proof.
  assert (Hin : In (Some account_already_exists)
                   (map initialize_failure (trace race_run)))
    by (right; left; reflexivity).
  split; [exact Hin |].
  exact (@renewSubscription_initialize_failure_propagates
           demo_web3 demo_adapter nat (chain_world race_chain) 0%nat
           demo_renew account_already_exists Hin).
Defined.

(** C8, as stated, fails on [create_run]: the one instruction submitted is
    [create_instruction], and the quality address is not among the addresses
    it is bound to.  It also fails on [overlong_create_run]: for 10^12 days
    the end time does not fit 53 bits and no [subscribe] is submitted. *)
Lemma createSubscription_omits_quality_address :
  trace create_run
  = [ Event (state_fetch (statePDA (demo_pdas provider1 alice)))
            (Ok {| owner := admin |});
      Event Date_now 1700000000000;
      Event (rpc create_instruction) (Ok "tx-1") ] /\
  map fst (bindings_of create_instruction)
  = [ "state"; "subscriber"; "dataProvider"; "subscription";
      "subscribersList"; "owner"; "systemProgram"; "tokenProgram";
      "nftTokenAccount" ] /\
  ~ In (qualityPDA (demo_pdas provider1 alice))
       (map snd (bindings_of create_instruction)) /\
  ~ binds_all_derived (demo_pdas provider1 alice) create_instruction /\
  final overlong_create_run = Rejected (newError "Assertion failed") /\
  existsb is_subscribe (trace overlong_create_run) = false.
Proof.
  assert (Hnot : ~ In (qualityPDA (demo_pdas provider1 alice))
                      (map snd (bindings_of create_instruction))).
  { vm_compute. intros H.
    repeat (destruct H as [H | H]; [discriminate H |]). exact H. }
  split; [vm_compute; reflexivity |].
  split; [reflexivity |].
  split; [exact Hnot |].
  split; [| split; reflexivity].
  intros Hall. apply Hnot. apply Hall. right; left; reflexivity.
Qed.

(** [create_run]: state fetch, clock reading, one [subscribe], resolved. *)
Lemma createSubscription_submits_subscribe_witness :
  wallet_publicKey demo_adapter = Some alice /\
  trace create_run
  = [ Event (state_fetch (statePDA (demo_pdas provider1 alice)))
            (Ok {| owner := admin |});
      Event Date_now 1700000000000;
      Event (rpc create_instruction) (Ok "tx-1") ] /\
  final create_run = Resolved "tx-1".
Proof.
  destruct (@createSubscription_submits_subscribe
              demo_web3 demo_adapter nat (chain_world three_chain)
              0%nat 0%nat demo_create alice {| owner := admin |}
              eq_refl eq_refl eq_refl eq_refl)
    as [Htrace [_ [Hok _]]].
  split; [reflexivity |].
  split; [exact Htrace | exact (Hok "tx-1" eq_refl)].
Defined.

(** Three listed subscribers, carol's record missing: the count is 2. *)
Lemma getActiveSubscriptionsForAgent_counts_witness :
  (forall i, seconds (clock_ms three_chain i) = 1700000000) /\
  listed_subscribers (web3 := demo_web3) demo_adapter three_chain provider1
  = [alice; carol; bob] /\
  is_Err (subscription_account three_chain
            (subscriptionPDA (demo_pdas provider1 carol))) = true /\
  final (run (chain_world three_chain)
             (getActiveSubscriptionsForAgent (web3 := demo_web3)
                demo_adapter provider1) 0%nat)
  = Resolved 2%nat.
Proof.
  split; [intros i; reflexivity |].
  split; [reflexivity |].
  split; [reflexivity |].
  exact (@getActiveSubscriptionsForAgent_counts
           demo_web3 demo_adapter three_chain provider1 1700000000 0%nat
           (fun i => eq_refl)).
Defined.

(** On [three_chain] the record ending at the clock value is dropped and
    the two kept ones are expiring soon and active. *)
Lemma getAllSubscriptionsForUser_never_expired_witness :
  final (run (chain_world three_chain) (getAllSubscriptionsForUser alice) 0%nat)
  = Resolved three_listed /\
  Forall (fun r =>
            endTime (subscription r) > 1700000000 /\
            (status_of r = active \/ status_of r = expiring_soon) /\
            status_of r <> expired)
         three_listed.
Proof.
  assert (Hrun : final (run (chain_world three_chain)
                            (getAllSubscriptionsForUser alice) 0%nat)
                 = Resolved three_listed) by reflexivity.
  split; [exact Hrun |].
  exact (@getAllSubscriptionsForUser_never_expired
           nat (chain_world three_chain) 1700000000 alice 0%nat three_listed
           (fun s' => eq_refl) Hrun).
Defined.

(** [handleError] on a program error, on an error with a foreign code, on an
    uncoded [Error] and on a thrown string. *)
Example handleError_samples :
  handleError {| code := Some (CodeNumber 6001); message := Some "custom";
                 instanceofError := true; String_ := "Error: custom" |}
  = newError "Already subscribed" /\
  handleError {| code := Some (CodeString "ECONNREFUSED");
                 message := Some "connect failed";
                 instanceofError := true;
                 String_ := "Error: connect failed" |}
  = newError "Unknown error: connect failed" /\
  handleError account_not_found = account_not_found /\
  handleError {| code := None; message := None;
                 instanceofError := false; String_ := "timeout" |}
  = newError "timeout".
Proof. repeat split. Qed.

(** [getAgentSubscribers] on a provider without a subscribers-list account,
    and on [provider1]. *)
Example getAgentSubscribers_samples :
  final (run (chain_world race_chain)
             (getAgentSubscribers (web3 := demo_web3) demo_adapter provider1)
             0%nat)
  = Resolved [] /\
  final (run (chain_world three_chain)
             (getAgentSubscribers (web3 := demo_web3) demo_adapter provider1)
             0%nat)
  = Resolved [alice; carol; bob].
Proof. split; reflexivity. Qed.

(** * Further properties of the adapter *)

(** ** The error translator, continued *)

Lemma known_code_dec (c : js_code) : known_code c \/ ~ known_code c.
Proof.
  destruct c as [n | str].
  - destruct (Z_le_gt_dec 6000 n) as [Hlo | Hlo];
      [destruct (Z_le_gt_dec n 6008) as [Hhi | Hhi] |].
    + left.
      assert (Hn : n = 6000 \/ n = 6001 \/ n = 6002 \/ n = 6003 \/ n = 6004
                   \/ n = 6005 \/ n = 6006 \/ n = 6007 \/ n = 6008) by lia.
      unfold known_code.
      destruct Hn as [-> | [-> | [-> | [-> | [-> | [-> | [-> | [-> | ->]]]]]]]];
        [ exists PeriodTooShort | exists AlreadySubscribed
        | exists InsufficientPayment | exists InvalidNFTHolder
        | exists SubscriptionNotFound | exists QualityOutOfRange
        | exists SubscriptionAlreadyEnded | exists ActiveSubscription
        | exists NotOwner ]; reflexivity.
    + right. intros [k Hk]. injection Hk as ->. destruct k; cbv in Hhi; discriminate.
    + right. intros [k Hk]. injection Hk as ->. destruct k; cbv in Hlo; discriminate.
  - right. intros [k Hk]. discriminate Hk.
Qed.

Lemma kind_message_injective (k k' : error_kind) :
  kind_message k = kind_message k' -> k = k'.
Proof. destruct k, k'; intros H; try reflexivity; discriminate H. Qed.

Lemma kind_message_not_unknown (k : error_kind) (m : string) :
  kind_message k <> ("Unknown error: " ++ m)%string.
Proof. destruct k; intros H; discriminate H. Qed.

Lemma newError_injective (m m' : string) : newError m = newError m' -> m = m'.
Proof. intros H. injection H as H _. exact H. Qed.

Lemma handleError_is_Error (error : thrown) :
  instanceofError (handleError error) = true /\ code (handleError error) = None.
Proof.
  unfold handleError.
  destruct (code error) as [[n | str] |] eqn:Hc.
  - repeat match goal with
           | |- context [if ?b then _ else _] => destruct b
           end; split; reflexivity.
  - split; reflexivity.
  - destruct (instanceofError error) eqn:Hi.
    + rewrite Hi, Hc. split; reflexivity.
    + split; reflexivity.
Qed.

(** X1. Whatever it is given, [handleError] returns an [Error] that carries
    no code; such a value is returned unchanged by [handleError], so
    translating an error twice is the same as translating it once. *)
Theorem handleError_uncoded_and_idempotent :
  forall error : thrown,
    instanceofError (handleError error) = true /\
    code (handleError error) = None /\
    handleError (handleError error) = handleError error.
Proof.
  intros error.
  destruct (handleError_is_Error error) as [Hi Hc].
  split; [exact Hi |]. split; [exact Hc |].
  unfold handleError at 1. rewrite Hc, Hi. reflexivity.
Qed.

(** X2. For a caught value that carries a code, the result of [handleError]
    is the error named for a kind exactly when the code is the number of
    that kind: the nine messages are pairwise different and none is an
    ["Unknown error: ..."] message, so the kind can be read back from the
    message. *)
Theorem handleError_kind_iff :
  forall (error : thrown) (c : js_code) (k : error_kind),
    code error = Some c ->
    (handleError error = newError (kind_message k)
     <-> c = CodeNumber (kind_code k)).
Proof.
  intros error c k Hc. split.
  - intros H. destruct (known_code_dec c) as [[k' ->] | Hunknown].
    + rewrite (handleError_known error k' Hc) in H.
      apply newError_injective, kind_message_injective in H. now subst.
    + rewrite (handleError_other_code error Hc Hunknown) in H.
      apply newError_injective in H. symmetry in H.
      now apply kind_message_not_unknown in H.
  - intros ->. now apply handleError_known.
Qed.

(** ** The status classifier, continued *)

Lemma classify_cases (endTime now : Z) :
  classify endTime now
  = if endTime <=? now then expired
    else if endTime - now <=? 604800 then expiring_soon
    else active.
Proof.
  unfold classify.
  destruct (endTime <=? now); [reflexivity |].
  destruct (Z.leb_spec (endTime - now) 604800) as [H | H].
  - apply days_le_7 in H. unfold Z.sub in *. cbn in H |- *. now rewrite H.
  - destruct (Qle_bool _ _) eqn:Hq; [| reflexivity].
    apply days_le_7 in Hq. lia.
Qed.

(** X3. The status never moves backwards in [endTime] and never forwards in
    [now]: a later end time or an earlier clock reading gives a status at
    least as far from expiry, in the order expired, expiring soon, active. *)
Theorem classify_monotone :
  forall endTime endTime' now now' : Z,
    endTime <= endTime' -> now' <= now ->
    status_rank (classify endTime now)
    <= status_rank (classify endTime' now').
Proof.
  intros endTime endTime' now now' He Hn.
  rewrite !classify_cases.
  repeat match goal with
         | |- context [?a <=? ?b] => destruct (Z.leb_spec a b)
         end; cbn; lia.
Qed.

Lemma fresh_subscription_status :
  forall ms ms' durationInDays : Z,
    seconds ms' = seconds ms ->
    classify (seconds ms + durationInDays * 24 * 60 * 60) (seconds ms')
    = if durationInDays <=? 0 then expired
      else if durationInDays <=? 7 then expiring_soon
      else active.
Proof.
  intros ms ms' d ->.
  rewrite classify_cases.
  repeat match goal with
         | |- context [?a <=? ?b] => destruct (Z.leb_spec a b)
         end; try reflexivity; lia.
Qed.

(** ** Rejections *)

Lemma run_translated (S A : Type) (w : World S) (p : Prog A) (s : S) :
  run w (try_catch p (fun error => Throw (handleError error))) s
  = {| final := match final (run w p s) with
                | Resolved a => Resolved a
                | Rejected e => Rejected (handleError e)
                end;
       trace := trace (run w p s);
       state_after := state_after (run w p s) |}.
Proof.
  rewrite run_try_catch.
  destruct (final (run w p s)); simpl; [| rewrite app_nil_r]; reflexivity.
Qed.

Lemma translated_rejection (S A : Type) (w : World S) (p : Prog A) (s : S)
      (e : thrown) :
  final (run w (try_catch p (fun error => Throw (handleError error))) s)
  = Rejected e ->
  (exists caught, final (run w p s) = Rejected caught /\
                  e = handleError caught) /\
  instanceofError e = true /\ code e = None.
Proof.
  rewrite run_translated. cbn [final].
  destruct (final (run w p s)) as [a | e0]; intros H; [discriminate H |].
  injection H as <-. split; [exists e0; split; reflexivity |].
  apply handleError_is_Error.
Qed.

Section RejectionFacts.
Context {web3 : Web3}.
Variable this : FxnSolanaAdapter.
Variable S : Type.
Variable w : World S.

(** X5. Whenever [createSubscription], [renewSubscription],
    [getAllSubscriptionsForUser], [getSubscriptionState] or [getQualityInfo]
    rejects, the value it rejects with is the ["Wallet not connected"] error
    or what [handleError] returned for a caught value; in both cases it is
    an [Error] whose own [code] property is undefined.  (An [Error] without
    a code is returned by [handleError] as it is, with whatever else it
    carries.) *)
Theorem rejections_carry_no_code :
  forall (s : S) (e : thrown),
    let translated :=
      (e = newError "Wallet not connected" \/
       exists caught, e = handleError caught) /\
      instanceofError e = true /\ code e = None in
    (forall params,
        final (run w (createSubscription this params) s) = Rejected e ->
        translated) /\
    (forall params,
        final (run w (renewSubscription this params) s) = Rejected e ->
        translated) /\
    (forall user,
        final (run w (getAllSubscriptionsForUser user) s) = Rejected e ->
        translated) /\
    (forall address,
        final (run w (getSubscriptionState address) s) = Rejected e ->
        translated) /\
    (forall provider,
        final (run w (getQualityInfo this provider) s) = Rejected e ->
        translated).
Proof.
  intros s e translated. subst translated.
  assert (Hwrap : forall (A : Type) (p : Prog A),
             final (run w (try_catch p
                             (fun error => Throw (handleError error))) s)
             = Rejected e ->
             (e = newError "Wallet not connected" \/
              exists caught, e = handleError caught) /\
             instanceofError e = true /\ code e = None).
  { intros A p H. apply translated_rejection in H.
    destruct H as [[caught [_ ->]] Huncoded].
    split; [right; exists caught; reflexivity | exact Huncoded]. }
  split; [| split; [| split; [| split]]].
  - intros params. unfold createSubscription.
    destruct (wallet_publicKey this); [apply Hwrap |].
    cbn [run final]. intros H. injection H as <-.
    split; [left; reflexivity | split; reflexivity].
  - intros params. unfold renewSubscription.
    destruct (wallet_publicKey this); [apply Hwrap |].
    cbn [run final]. intros H. injection H as <-.
    split; [left; reflexivity | split; reflexivity].
  - intros user. apply Hwrap.
  - intros address. apply Hwrap.
  - intros provider. apply Hwrap.
Qed.

End RejectionFacts.

(** ** Creating and renewing, continued *)

Section LifecycleFacts.
Context {web3 : Web3}.
Variable this : FxnSolanaAdapter.
Variable S : Type.
Variable w : World S.

(** X6. [createSubscription] submits nothing before it has a wallet and the
    state account: without a connected wallet it rejects with
    ["Wallet not connected"] and makes no call at all; when the fetch of the
    state account fails it rejects with the translated error after that
    single fetch, without reading the clock and without submitting. *)
Theorem createSubscription_stops_early :
  forall (s : S) (params : CreateSubscriptionParams.t),
    let r := run w (createSubscription this params) s in
    (wallet_publicKey this = None ->
     final r = Rejected (newError "Wallet not connected") /\ trace r = []) /\
    (forall subscriber e,
        wallet_publicKey this = Some subscriber ->
        let address :=
          statePDA (getProgramAddresses
                      this (CreateSubscriptionParams.dataProvider params)
                      subscriber) in
        fst (respond w (state_fetch address) s) = Err e ->
        final r = Rejected (handleError e) /\
        trace r = [Event (state_fetch address) (Err e)]).
Proof.
  intros s params r. subst r. split.
  - intros Hwallet. unfold createSubscription. rewrite Hwallet.
    split; reflexivity.
  - intros subscriber e Hwallet address Hfetch. subst address.
    unfold createSubscription, await, perform. rewrite Hwallet.
    simpl in Hfetch |- *.
    destruct (respond w (state_fetch _) s) as [answer s1].
    simpl in Hfetch. subst answer. split; reflexivity.
Qed.

(** X7. When the [subscribe] submission of [createSubscription], made for a
    whole number of days whose seconds and end time have at most 53 bits, is
    refused with the number of one of the nine error kinds as its code, the
    call rejects with the error named for that kind, whatever message the
    refusal carried; no transaction signature is returned. *)
Theorem createSubscription_named_rejection :
  forall (s s1 : S) (params : CreateSubscriptionParams.t)
         (subscriber : PublicKey) (state : StateAccount) (e : thrown)
         (k : error_kind),
    let pdas :=
      getProgramAddresses
        this (CreateSubscriptionParams.dataProvider params) subscriber in
    let ms := fst (respond w Date_now s1) in
    let ix :=
      methods.subscribe
        (CreateSubscriptionParams.recipient params)
        (seconds ms
         + CreateSubscriptionParams.durationInDays params * 24 * 60 * 60)
        (subscribe_accounts params subscriber pdas state) in
    wallet_publicKey this = Some subscriber ->
    respond w (state_fetch (statePDA pdas)) s = (Ok state, s1) ->
    Z.abs (CreateSubscriptionParams.durationInDays params * 24 * 60 * 60)
    < 9007199254740992 ->
    Z.abs (seconds ms
           + CreateSubscriptionParams.durationInDays params * 24 * 60 * 60)
    < 9007199254740992 ->
    fst (respond w (rpc ix) (snd (respond w Date_now s1))) = Err e ->
    code e = Some (CodeNumber (kind_code k)) ->
    final (run w (createSubscription this params) s)
    = Rejected (newError (kind_message k)).
Proof.
  intros s s1 params subscriber state e k pdas ms ix
         Hwallet Hstate _ Hsafe Hsub Hcode.
  subst ix ms pdas.
  unfold createSubscription, await, perform. rewrite Hwallet.
  simpl in Hstate, Hsub |- *. rewrite Hstate. simpl.
  destruct (respond w Date_now s1) as [ms s2]. simpl in Hsub, Hsafe |- *.
  rewrite BN_of_number_safe by exact Hsafe. simpl.
  match goal with
  | |- context [respond w (rpc ?i) s2] =>
      destruct (respond w (rpc i) s2) as [answer s3]
  end.
  simpl in Hsub. subst answer. simpl.
  now rewrite (handleError_known e k Hcode).
Qed.

(** X4. With every clock reading in the second [now], each [subscribe]
    instruction that [createSubscription] submits carries an end time whose
    status at [now] is expired for a duration of zero days or less, expiring
    soon for one to seven days, and active from eight days on. *)
Theorem createSubscription_fresh_status :
  forall (s : S) (params : CreateSubscriptionParams.t) (now : Z),
    (forall s', seconds (fst (respond w Date_now s')) = now) ->
    Forall (fun endTime =>
              classify endTime now
              = if CreateSubscriptionParams.durationInDays params <=? 0
                then expired
                else if CreateSubscriptionParams.durationInDays params <=? 7
                     then expiring_soon
                     else active)
           (subscribe_endTimes (trace (run w (createSubscription this params) s))).
Proof.
  intros s params now Hclock.
  unfold createSubscription, await, perform.
  destruct (wallet_publicKey this) as [subscriber |]; simpl;
    [| constructor].
  destruct (respond w (state_fetch _) s) as [[state | e] s1]; simpl;
    [| constructor].
  specialize (Hclock s1).
  destruct (respond w Date_now s1) as [ms s2]. simpl in Hclock |- *.
  destruct (BN_of_number _) as [endTime | e] eqn:Hbn; simpl;
    [| constructor].
  apply BN_of_number_Ok in Hbn. destruct Hbn as [-> _].
  match goal with
  | |- context [respond w (rpc ?i) s2] =>
      destruct (respond w (rpc i) s2) as [[txHash | e] s3]
  end; simpl; (constructor; [| constructor]);
    subst now; apply fresh_subscription_status; reflexivity.
Qed.

(** X8. When the quality record is there, the state account can be fetched
    and the new end time has at most 53 bits, a run of [renewSubscription]
    is the two fetches followed by one [renewSubscription] submission:
    nothing is initialized, the clock is not read, and the new recipient,
    the new end time and the quality score go into the instruction as they
    were given, bound to the state,
    subscription and quality addresses (not the subscribers list), the
    subscriber, the provider, the owner read from the state account, the
    system and token programs and the NFT token account.  The call resolves
    or rejects with the answer to that submission. *)
Theorem renewSubscription_present_quality :
  forall (s s1 s2 : S) (params : RenewParams.t) (subscriber : PublicKey)
         (quality : QualityInfoAccount) (state : StateAccount),
    let pdas :=
      getProgramAddresses this (RenewParams.dataProvider params) subscriber in
    let ix :=
      methods.renewSubscription
        (RenewParams.newRecipient params)
        (RenewParams.newEndTime params)
        (RenewParams.qualityScore params)
        [ ("state", statePDA pdas);
          ("subscriber", subscriber);
          ("dataProvider", RenewParams.dataProvider params);
          ("subscription", subscriptionPDA pdas);
          ("qualityInfo", qualityPDA pdas);
          ("owner", owner state);
          ("systemProgram", SystemProgram_programId);
          ("tokenProgram", TOKEN_PROGRAM_ID);
          ("nftTokenAccount", RenewParams.nftTokenAccount params) ] in
    let submission := fst (respond w (rpc ix) s2) in
    let r := run w (renewSubscription this params) s in
    wallet_publicKey this = Some subscriber ->
    Z.abs (RenewParams.newEndTime params) < 9007199254740992 ->
    respond w (qualityInfo_fetch (qualityPDA pdas)) s = (Ok quality, s1) ->
    respond w (state_fetch (statePDA pdas)) s1 = (Ok state, s2) ->
    trace r = [ Event (qualityInfo_fetch (qualityPDA pdas)) (Ok quality);
                Event (state_fetch (statePDA pdas)) (Ok state);
                Event (rpc ix) submission ] /\
    final r = match submission with
              | Ok txHash => Resolved txHash
              | Err e => Rejected (handleError e)
              end.
Proof.
  intros s s1 s2 params subscriber quality state pdas ix submission r
         Hwallet Hsafe Hquality Hstate.
  subst r submission ix pdas.
  unfold renewSubscription, await, renew_accounts. rewrite Hwallet.
  simpl in Hquality, Hstate |- *. rewrite Hquality. simpl.
  rewrite Hstate. simpl.
  rewrite BN_of_number_safe by exact Hsafe. simpl.
  match goal with
  | |- context [respond w (rpc ?i) s2] =>
      destruct (respond w (rpc i) s2) as [[txHash | e] s3]
  end; simpl; split; reflexivity.
Qed.

(** X9. [renewSubscription] is not atomic: when the quality record cannot
    be fetched, the initialize submission succeeds and the fetch of the state
    account then fails, the call rejects with the translated fetch error
    although the initialize transaction has been submitted and accepted; the
    renew transition is not submitted. *)
Theorem renewSubscription_initialized_then_failed :
  forall (s s1 s2 : S) (params : RenewParams.t) (subscriber : PublicKey)
         (e0 e : thrown) (txInit : TransactionSignature),
    let pdas :=
      getProgramAddresses this (RenewParams.dataProvider params) subscriber in
    let init :=
      methods.initializeQualityInfo
        [ ("qualityInfo", qualityPDA pdas);
          ("dataProvider", RenewParams.dataProvider params);
          ("payer", subscriber);
          ("systemProgram", SystemProgram_programId) ] in
    let r := run w (renewSubscription this params) s in
    wallet_publicKey this = Some subscriber ->
    respond w (qualityInfo_fetch (qualityPDA pdas)) s = (Err e0, s1) ->
    respond w (rpc init) s1 = (Ok txInit, s2) ->
    fst (respond w (state_fetch (statePDA pdas)) s2) = Err e ->
    final r = Rejected (handleError e) /\
    trace r = [ Event (qualityInfo_fetch (qualityPDA pdas)) (Err e0);
                Event (rpc init) (Ok txInit);
                Event (state_fetch (statePDA pdas)) (Err e) ].
Proof.
  intros s s1 s2 params subscriber e0 e txInit pdas init r
         Hwallet Hquality Hinit Hstate.
  subst r init pdas.
  unfold renewSubscription, await, initialize_accounts. rewrite Hwallet.
  simpl in Hquality, Hinit, Hstate |- *. rewrite Hquality. simpl.
  rewrite Hinit. simpl.
  destruct (respond w (state_fetch _) s2) as [answer s3].
  simpl in Hstate. subst answer. split; reflexivity.
Qed.

End LifecycleFacts.

(** ** Reading, continued *)

Section QueryFacts.
Context {web3 : Web3}.
Variable this : FxnSolanaAdapter.
Variable S : Type.
Variable w : World S.

Lemma count_step_any (agentAddress subscriber : PublicKey)
      (activeCount : nat) (s : S) :
  (final (run w (count_step this agentAddress subscriber activeCount) s)
   = Resolved activeCount \/
   final (run w (count_step this agentAddress subscriber activeCount) s)
   = Resolved (Datatypes.S activeCount)) /\
  subscription_fetches
    (trace (run w (count_step this agentAddress subscriber activeCount) s))
  = [subscriptionPDA (getProgramAddresses this agentAddress subscriber)] /\
  existsb is_rpc
    (trace (run w (count_step this agentAddress subscriber activeCount) s))
  = false.
Proof.
  unfold count_step, await, perform; simpl.
  destruct (respond w (subscription_fetch _) s) as [[sub | e] s1]; simpl.
  - destruct (respond w Date_now s1) as [ms s2]; simpl.
    destruct (endTime sub >? seconds ms); simpl; auto.
  - auto.
Qed.

Lemma count_loop_any (agentAddress : PublicKey)
      (subscribers : list PublicKey) :
  forall (activeCount : nat) (s : S),
    (exists n,
        final (run w (count_loop this agentAddress subscribers activeCount) s)
        = Resolved n /\
        (activeCount <= n <= activeCount + List.length subscribers)%nat) /\
    subscription_fetches
      (trace (run w (count_loop this agentAddress subscribers activeCount) s))
    = map (fun subscriber =>
             subscriptionPDA
               (getProgramAddresses this agentAddress subscriber))
          subscribers /\
    existsb is_rpc
      (trace (run w (count_loop this agentAddress subscribers activeCount) s))
    = false.
Proof.
  induction subscribers as [| subscriber rest IH]; intros activeCount s.
  - simpl. repeat split. exists activeCount. split; [reflexivity | lia].
  - cbn [count_loop map List.length].
    rewrite run_bind.
    destruct (count_step_any agentAddress subscriber activeCount s)
      as [Hfinal [Hfetch Hrpc]].
    destruct Hfinal as [Hfinal | Hfinal]; rewrite Hfinal; cbn [final trace];
      match goal with
      | |- context [run w (count_loop this agentAddress rest ?a) ?s'] =>
          destruct (IH a s') as [[n [Hn Hbound]] [Hfetch' Hrpc']]
      end;
      unfold subscription_fetches in *;
      rewrite flat_map_app, existsb_app, Hfetch, Hfetch', Hrpc, Hrpc';
      (split; [exists n; split; [exact Hn | lia] | split; reflexivity]).
Qed.

(** X11. In any world, [getActiveSubscriptionsForAgent] resolves: it never
    rejects, whatever fails along the way.  Its count is at most the length
    of the subscribers list it read (zero when the list cannot be fetched),
    and it fetches the subscription record of every listed subscriber once,
    in list order, at the address [getProgramAddresses] derives for that
    subscriber and the agent, also after earlier fetches have failed. *)
Theorem getActiveSubscriptionsForAgent_always_resolves :
  forall (s : S) (agentAddress anySubscriber : PublicKey),
    let listed :=
      match fst (respond w (subscribersList_fetch
                              (subscribersListPDA
                                 (getProgramAddresses this agentAddress
                                                      anySubscriber))) s) with
      | Ok l => subscribers l
      | Err _ => []
      end in
    let r := run w (getActiveSubscriptionsForAgent this agentAddress) s in
    (exists n, final r = Resolved n /\ (n <= List.length listed)%nat) /\
    subscription_fetches (trace r)
    = map (fun subscriber =>
             subscriptionPDA
               (getProgramAddresses this agentAddress subscriber))
          listed.
Proof.
  intros s agentAddress anySubscriber listed r. subst r listed.
  unfold getActiveSubscriptionsForAgent.
  rewrite run_translated, run_bind, getAgentSubscribers_run.
  cbn [final trace state_after subscribersListPDA getProgramAddresses].
  match goal with
  | |- context [run w (count_loop this agentAddress ?l 0%nat) ?s'] =>
      destruct (count_loop_any agentAddress l 0%nat s')
        as [[n [Hn Hbound]] [Hfetch _]]
  end.
  rewrite Hn. cbn [final trace]. split.
  - exists n. split; [reflexivity | lia].
  - cbn [subscription_fetches flat_map app]. exact Hfetch.
Qed.

Lemma filter_pass_any (accounts : list ProgramAccount) :
  forall s,
    (exists kept,
        final (run w
                 (filterP (fun acc =>
                             ms <- perform Date_now ;;
                             Return (endTime (account acc) >? seconds ms))
                          accounts) s)
        = Resolved kept) /\
    forallb is_clock
      (trace (run w
                (filterP (fun acc =>
                            ms <- perform Date_now ;;
                            Return (endTime (account acc) >? seconds ms))
                         accounts) s))
    = true.
Proof.
  induction accounts as [| acc rest IH]; intros s.
  - simpl. split; [eexists; reflexivity | reflexivity].
  - cbn [filterP].
    rewrite run_bind, clock_then_run. cbn [final state_after trace].
    rewrite run_bind.
    destruct (IH (snd (respond w Date_now s))) as [[kept Hkept] Hclock].
    rewrite Hkept. cbn [final trace run app forallb is_clock].
    rewrite forallb_app, Hclock.
    split; [eexists; reflexivity | reflexivity].
Qed.

Lemma map_pass_any (accounts : list ProgramAccount) :
  forall s,
    forallb is_clock
      (trace (run w
                (mapP (fun acc =>
                         st <- getSubscriptionStatus (endTime (account acc)) ;;
                         Return {| subscription := account acc;
                                   subscriptionPDA_of := publicKey acc;
                                   status_of := st |})
                      accounts) s))
    = true.
Proof.
  induction accounts as [| acc rest IH]; intros s.
  - reflexivity.
  - cbn [mapP].
    rewrite run_bind, status_then_run. cbn [final state_after trace].
    destruct (fits_53_bits (endTime (account acc))); [| reflexivity].
    rewrite run_bind.
    specialize (IH (snd (respond w Date_now s))).
    destruct (final (run w (mapP _ rest) _));
      cbn [final trace run app forallb is_clock];
      [rewrite forallb_app, IH; reflexivity | exact IH].
Qed.

Lemma clock_events_are_not_rpc (t : list event) :
  forallb is_clock t = true -> existsb is_rpc t = false.
Proof.
  induction t as [| [R c r] t IH]; [reflexivity |].
  cbn [forallb existsb]. intros H.
  apply andb_true_iff in H. destruct H as [Hc Ht].
  rewrite (IH Ht). destruct c; try discriminate Hc; reflexivity.
Qed.

Lemma run_await (A : Type) (c : call (result A)) (s : S) :
  run w (await c) s
  = {| final := match fst (respond w c s) with
                | Ok a => Resolved a
                | Err e => Rejected e
                end;
       trace := [Event c (fst (respond w c s))];
       state_after := snd (respond w c s) |}.
Proof.
  unfold await; simpl.
  destruct (respond w c s) as [[a | e] s1]; reflexivity.
Qed.

Lemma getAllSubscriptionsForUser_trace (user : PublicKey) (s : S) :
  exists clock_readings,
    trace (run w (getAllSubscriptionsForUser user) s)
    = Event subscription_all (fst (respond w subscription_all s))
      :: clock_readings /\
    forallb is_clock clock_readings = true.
Proof.
  unfold getAllSubscriptionsForUser.
  rewrite run_translated. cbn [trace].
  rewrite run_bind, run_await. cbn [final trace state_after].
  destruct (fst (respond w subscription_all s)) as [accounts | e].
  2: { exists []. split; reflexivity. }
  cbn [trace app]. rewrite run_bind.
  destruct (filter_pass_any accounts (snd (respond w subscription_all s)))
    as [[kept Hkept] Hclock].
  rewrite Hkept. cbn [final trace].
  rewrite run_bind.
  match goal with
  | |- context [run w (mapP ?f kept) ?s'] =>
      pose proof (map_pass_any kept s') as Hclock';
      destruct (final (run w (mapP f kept) s'))
  end; cbn [final trace run]; rewrite ?app_nil_r;
    (eexists; split; [reflexivity |]);
    now rewrite forallb_app, Hclock, Hclock'.
Qed.

(** X12. The query methods never submit a transaction: in any world, no
    run of [getAgentSubscribers], [getActiveSubscriptionsForAgent],
    [getAllSubscriptionsForUser], [getSubscriptionState], [getQualityInfo] or
    [getSubscriptionStatus] contains a submission. *)
Theorem queries_never_submit :
  forall (s : S) (address : PublicKey) (endTime : Z),
    existsb is_rpc (trace (run w (getAgentSubscribers this address) s))
    = false /\
    existsb is_rpc
      (trace (run w (getActiveSubscriptionsForAgent this address) s))
    = false /\
    existsb is_rpc (trace (run w (getAllSubscriptionsForUser address) s))
    = false /\
    existsb is_rpc (trace (run w (getSubscriptionState address) s)) = false /\
    existsb is_rpc (trace (run w (getQualityInfo this address) s)) = false /\
    existsb is_rpc (trace (run w (getSubscriptionStatus endTime) s)) = false.
Proof.
  intros s address endTime.
  split; [rewrite getAgentSubscribers_run; reflexivity |].
  split.
  { unfold getActiveSubscriptionsForAgent.
    rewrite run_translated, run_bind, getAgentSubscribers_run.
    cbn [final trace state_after].
    match goal with
    | |- context [run w (count_loop this address ?l 0%nat) ?s'] =>
        destruct (count_loop_any address l 0%nat s') as [_ [_ Hrpc]]
    end.
    cbn [trace app existsb is_rpc]. exact Hrpc. }
  split.
  { destruct (getAllSubscriptionsForUser_trace address s)
      as [readings [-> Hclock]].
    cbn [existsb is_rpc]. now apply clock_events_are_not_rpc. }
  split.
  { unfold getSubscriptionState, await. rewrite run_translated. simpl.
    destruct (respond w (subscription_fetch address) s) as [[a | e] s1];
      reflexivity. }
  split.
  { unfold getQualityInfo, await. rewrite run_translated. simpl.
    destruct (respond w (qualityInfo_fetch _) s) as [[a | e] s1];
      reflexivity. }
  rewrite getSubscriptionStatus_run. reflexivity.
Qed.

(** X13. In a world whose clock reads [now] seconds at every reading,
    [getAllSubscriptionsForUser] keeps exactly the accounts with
    [endTime > now].  When the end time of each of them has at most 53 bits,
    it resolves to one record per kept account, in the order of
    [subscription.all()], holding the account, its address and its status at
    [now], so an account ending after [now] is never left out; when one of
    them has an end time of more than 53 bits, the call rejects with the
    error [toNumber] throws.  When [subscription.all()] fails, the call
    rejects with the translated error. *)
Theorem getAllSubscriptionsForUser_exact :
  forall (now : Z) (user : PublicKey) (s : S),
    (forall s', seconds (fst (respond w Date_now s')) = now) ->
    final (run w (getAllSubscriptionsForUser user) s)
    = match fst (respond w subscription_all s) with
      | Ok accounts =>
          let kept :=
            filter (fun acc => now <? endTime (account acc)) accounts in
          if forallb (fun acc =>
                        Z.abs (endTime (account acc)) <? 9007199254740992)
                     kept
          then Resolved
                 (map (fun acc =>
                         {| subscription := account acc;
                            subscriptionPDA_of := publicKey acc;
                            status_of :=
                              classify (endTime (account acc)) now |})
                      kept)
          else Rejected
                 (newError "Number can only safely store up to 53 bits")
      | Err e => Rejected (handleError e)
      end.
Proof.
  intros now user s Hclock.
  rewrite (getAllSubscriptionsForUser_run w Hclock).
  destruct (fst (respond w subscription_all s)) as [accounts | e];
    [| reflexivity].
  cbv zeta.
  replace (filter (fun acc => endTime (account acc) >? now) accounts)
    with (filter (fun acc => now <? endTime (account acc)) accounts)
    by (apply filter_ext; intros acc; symmetry; apply Z.gtb_ltb).
  reflexivity.
Qed.

(** X15. [getSubscriptionState] and [getQualityInfo] make one fetch and pass
    its failure on, translated, where [getAgentSubscribers] would resolve to
    an empty list; [getQualityInfo] reads the very address that
    [renewSubscription] probes and initializes for that provider, whoever the
    subscriber is. *)
Theorem single_fetch_queries :
  forall (s : S) (address provider subscriber : PublicKey),
    let quality :=
      qualityPDA (getProgramAddresses this provider subscriber) in
    run w (getSubscriptionState address) s
    = {| final := match fst (respond w (subscription_fetch address) s) with
                  | Ok a => Resolved a
                  | Err e => Rejected (handleError e)
                  end;
         trace := [Event (subscription_fetch address)
                         (fst (respond w (subscription_fetch address) s))];
         state_after := snd (respond w (subscription_fetch address) s) |} /\
    run w (getQualityInfo this provider) s
    = {| final := match fst (respond w (qualityInfo_fetch quality) s) with
                  | Ok a => Resolved a
                  | Err e => Rejected (handleError e)
                  end;
         trace := [Event (qualityInfo_fetch quality)
                         (fst (respond w (qualityInfo_fetch quality) s))];
         state_after := snd (respond w (qualityInfo_fetch quality) s) |}.
Proof.
  intros s address provider subscriber quality. subst quality. split.
  - unfold getSubscriptionState, await. rewrite run_translated. simpl.
    destruct (respond w (subscription_fetch address) s) as [[a | e] s1];
      reflexivity.
  - unfold getQualityInfo, await. rewrite run_translated. simpl.
    destruct (respond w (qualityInfo_fetch _) s) as [[a | e] s1];
      reflexivity.
Qed.

End QueryFacts.

(** ** Cancelling and the NFT helpers *)

Section SideFacts.
Context {web3 : Web3}.
Variable this : FxnSolanaAdapter.
Variable S : Type.
Variable b : Backend S.

(** X16. [cancelSubscription] makes no call without a connected wallet and
    rejects with ["Wallet not connected"]; with one, it makes exactly one
    call, the cancel submission, without fetching any account: the
    instruction carries the quality score as given and is bound to the
    subscriber, the provider, the subscription and quality addresses, the
    token program and the NFT token account as given (possibly undefined),
    and to neither the state account nor its owner.  The call resolves to
    the signature or rejects with the translated error of that
    submission. *)
Theorem cancelSubscription_single_submission :
  forall (s : S) (params : CancelParams.t),
    let r := script_run b (cancelSubscription this params) s in
    match wallet_publicKey this with
    | None =>
        script_final r = Rejected (newError "Wallet not connected") /\
        script_trace r = []
    | Some subscriber =>
        let pdas :=
          getProgramAddresses this (CancelParams.dataProvider params)
                              subscriber in
        let c :=
          rpc_cancelSubscription
            (CancelParams.qualityScore params)
            [ ("subscriber", Some subscriber);
              ("dataProvider", Some (CancelParams.dataProvider params));
              ("subscription", Some (subscriptionPDA pdas));
              ("qualityInfo", Some (qualityPDA pdas));
              ("tokenProgram", Some TOKEN_PROGRAM_ID);
              ("nftTokenAccount", CancelParams.nftTokenAccount params) ] in
        script_trace r = [SideEvent c (fst (reply b c s))] /\
        script_final r = match fst (reply b c s) with
                         | Ok txHash => Resolved txHash
                         | Err e => Rejected (handleError e)
                         end
    end.
Proof.
  intros s params r. subst r. unfold cancelSubscription.
  destruct (wallet_publicKey this) as [subscriber |];
    [| split; reflexivity].
  unfold script_await, cancel_accounts. simpl.
  match goal with
  | |- context [reply b ?c s] => destruct (reply b c s) as [[txHash | e] s1]
  end; split; reflexivity.
Qed.

(** X17. [getProviderTokenAccount], given a valid mint key, asks for the
    associated token address of the provider with off-curve owners refused
    and then for the account at that address.  It resolves to the address
    exactly when the account exists; when the account is missing it rejects
    with the error ["Provider does not have the required NFT"], which
    [handleError] leaves as it is; when the address cannot be derived it
    rejects without asking for the account.  When the mint key itself is
    invalid, the error is raised before the [try] block, untranslated and
    without any call. *)
Theorem getProviderTokenAccount_outcomes :
  forall (s : S) (nftMintKey : result PublicKey) (providerAddress : PublicKey),
    let r :=
      script_run b (getProviderTokenAccount nftMintKey providerAddress) s in
    match nftMintKey with
    | Err e => script_final r = Rejected e /\ script_trace r = []
    | Ok nftMint =>
        let derive := getAssociatedTokenAddress nftMint providerAddress false in
        match fst (reply b derive s) with
        | Err e =>
            script_final r = Rejected (handleError e) /\
            script_trace r = [SideEvent derive (Err e)]
        | Ok tokenAccount =>
            let info :=
              fst (reply b (getAccountInfo tokenAccount)
                         (snd (reply b derive s))) in
            script_trace r
            = [ SideEvent derive (Ok tokenAccount);
                SideEvent (getAccountInfo tokenAccount) info ] /\
            script_final r
            = match info with
              | Ok (Some _) => Resolved tokenAccount
              | Ok None =>
                  Rejected
                    (newError "Provider does not have the required NFT")
              | Err e => Rejected (handleError e)
              end
        end
    end.
Proof.
  intros s nftMintKey providerAddress r. subst r.
  unfold getProviderTokenAccount.
  destruct nftMintKey as [nftMint | e]; [| split; reflexivity].
  unfold script_await. simpl.
  destruct (reply b (getAssociatedTokenAddress nftMint providerAddress false) s)
    as [[tokenAccount | e] s1]; simpl; [| split; reflexivity].
  destruct (reply b (getAccountInfo tokenAccount) s1)
    as [[[info |] | e] s2]; simpl; split; reflexivity.
Qed.

(** X18. With a connected wallet, [mintRegistrationNFT] creates a mint with
    zero decimals and no freeze authority under the token program, then the
    associated token account of the wallet for that mint, then mints one
    token to that account, the wallet being payer, authority and owner
    throughout.  It stops at the first call that fails and rejects with its
    translated error, leaving what was created before in place; when all
    three succeed it resolves to the mint and the token account the first
    two calls returned. *)
Theorem mintRegistrationNFT_steps :
  forall (s : S) (wallet : PublicKey),
    wallet_publicKey this = Some wallet ->
    let r := script_run b (mintRegistrationNFT this) s in
    let create := createMint wallet wallet None 0 TOKEN_PROGRAM_ID in
    match fst (reply b create s) with
    | Err e =>
        script_final r = Rejected (handleError e) /\
        script_trace r = [SideEvent create (Err e)]
    | Ok mint =>
        let open := createAssociatedTokenAccount wallet mint wallet in
        let s1 := snd (reply b create s) in
        match fst (reply b open s1) with
        | Err e =>
            script_final r = Rejected (handleError e) /\
            script_trace r
            = [SideEvent create (Ok mint); SideEvent open (Err e)]
        | Ok tokenAccount =>
            let issue := mintTo wallet mint tokenAccount wallet 1 in
            let s2 := snd (reply b open s1) in
            script_trace r
            = [ SideEvent create (Ok mint);
                SideEvent open (Ok tokenAccount);
                SideEvent issue (fst (reply b issue s2)) ] /\
            script_final r
            = match fst (reply b issue s2) with
              | Ok _ =>
                  Resolved {| mint := mint; tokenAccount := tokenAccount |}
              | Err e => Rejected (handleError e)
              end
        end
    end.
Proof.
  intros s wallet Hwallet r. subst r.
  unfold mintRegistrationNFT. rewrite Hwallet.
  unfold script_await. simpl.
  destruct (reply b (createMint wallet wallet None 0 TOKEN_PROGRAM_ID) s)
    as [[mint | e] s1]; simpl; [| split; reflexivity].
  destruct (reply b (createAssociatedTokenAccount wallet mint wallet) s1)
    as [[tokenAccount | e] s2]; simpl; [| split; reflexivity].
  destruct (reply b (mintTo wallet mint tokenAccount wallet 1) s2)
    as [[sig | e] s3]; simpl; split; reflexivity.
Qed.

End SideFacts.

(** ** Renewing for the first time, and a moving clock *)

Section MoreFacts.
Context {web3 : Web3}.
Variable this : FxnSolanaAdapter.

(** X10. On the first renewal for a provider, when the quality record cannot
    be fetched, every later call succeeds and the new end time has at most
    53 bits, a run of [renewSubscription]
    is: the failed fetch, the initialize submission paid by the subscriber
    for the quality address of the provider, the fetch of the state account,
    and the renew submission bound to that same quality address.  The call
    resolves to the signature of the renew submission; the signature of the
    initialize submission is dropped. *)
Theorem renewSubscription_first_renewal :
  forall (S : Type) (w : World S) (s s1 s2 s3 : S) (params : RenewParams.t)
         (subscriber : PublicKey) (e0 : thrown) (state : StateAccount)
         (txInit : TransactionSignature),
    let pdas :=
      getProgramAddresses this (RenewParams.dataProvider params) subscriber in
    let init :=
      methods.initializeQualityInfo
        [ ("qualityInfo", qualityPDA pdas);
          ("dataProvider", RenewParams.dataProvider params);
          ("payer", subscriber);
          ("systemProgram", SystemProgram_programId) ] in
    let renew :=
      methods.renewSubscription
        (RenewParams.newRecipient params)
        (RenewParams.newEndTime params)
        (RenewParams.qualityScore params)
        (renew_accounts params subscriber pdas state) in
    let r := run w (renewSubscription this params) s in
    wallet_publicKey this = Some subscriber ->
    Z.abs (RenewParams.newEndTime params) < 9007199254740992 ->
    respond w (qualityInfo_fetch (qualityPDA pdas)) s = (Err e0, s1) ->
    respond w (rpc init) s1 = (Ok txInit, s2) ->
    respond w (state_fetch (statePDA pdas)) s2 = (Ok state, s3) ->
    trace r = [ Event (qualityInfo_fetch (qualityPDA pdas)) (Err e0);
                Event (rpc init) (Ok txInit);
                Event (state_fetch (statePDA pdas)) (Ok state);
                Event (rpc renew) (fst (respond w (rpc renew) s3)) ] /\
    In ("qualityInfo", qualityPDA pdas) (bindings_of renew) /\
    final r = match fst (respond w (rpc renew) s3) with
              | Ok txHash => Resolved txHash
              | Err e => Rejected (handleError e)
              end.
Proof.
  intros S w s s1 s2 s3 params subscriber e0 state txInit pdas init renew r
         Hwallet Hsafe Hquality Hinit Hstate.
  subst r renew init pdas.
  unfold renewSubscription, await, initialize_accounts. rewrite Hwallet.
  simpl in Hquality, Hinit, Hstate |- *. rewrite Hquality. simpl.
  rewrite Hinit. simpl. rewrite Hstate. simpl.
  rewrite BN_of_number_safe by exact Hsafe. simpl.
  match goal with
  | |- context [respond w (rpc ?i) s3] =>
      destruct (respond w (rpc i) s3) as [[txHash | e] s4]
  end; simpl; repeat split; auto 10.
Qed.

End MoreFacts.

Section MovingClock.
Variable ch : Chain.
Variables now1 now2 : Z.

Lemma filter_pass_chain (accounts : list ProgramAccount) :
  forall n : nat,
    (forall i, (n <= i < n + List.length accounts)%nat ->
               seconds (clock_ms ch i) = now1) ->
    final (run (chain_world ch)
             (filterP (fun acc =>
                         ms <- perform Date_now ;;
                         Return (endTime (account acc) >? seconds ms))
                      accounts) n)
    = Resolved (filter (fun acc => endTime (account acc) >? now1) accounts) /\
    state_after (run (chain_world ch)
             (filterP (fun acc =>
                         ms <- perform Date_now ;;
                         Return (endTime (account acc) >? seconds ms))
                      accounts) n)
    = (n + List.length accounts)%nat.
Proof.
  induction accounts as [| acc rest IH]; intros n Hclock.
  - simpl. split; [reflexivity | lia].
  - cbn [filterP filter List.length].
    rewrite run_bind, clock_then_run. cbn [final state_after].
    rewrite run_bind.
    cbn [respond chain_world chain_respond fst snd].
    destruct (IH (Datatypes.S n)) as [Hfinal Hstate].
    { intros i Hi. apply Hclock. cbn [List.length]. lia. }
    rewrite Hfinal. cbn [final state_after run].
    rewrite Hstate, (Hclock n) by (cbn [List.length]; lia).
    split; [| lia].
    destruct (endTime (account acc) >? now1); reflexivity.
Qed.

Lemma map_pass_chain (accounts : list ProgramAccount) :
  forall n : nat,
    (forall i, (n <= i)%nat -> seconds (clock_ms ch i) = now2) ->
    final (run (chain_world ch)
             (mapP (fun acc =>
                      st <- getSubscriptionStatus (endTime (account acc)) ;;
                      Return {| subscription := account acc;
                                subscriptionPDA_of := publicKey acc;
                                status_of := st |})
                   accounts) n)
    = if forallb (fun acc => fits_53_bits (endTime (account acc))) accounts
      then Resolved (map (listed now2) accounts)
      else Rejected toNumber_refusal.
Proof.
  induction accounts as [| acc rest IH]; intros n Hclock.
  - reflexivity.
  - cbn [mapP map forallb].
    rewrite run_bind, status_then_run.
    destruct (fits_53_bits (endTime (account acc))); [| reflexivity].
    cbn [final state_after andb].
    rewrite run_bind.
    cbn [respond chain_world chain_respond fst snd].
    rewrite IH by (intros i Hi; apply Hclock; lia).
    rewrite (Hclock n) by lia.
    destruct (forallb _ rest); reflexivity.
Qed.

(** X14. [getAllSubscriptionsForUser] reads the clock once per account to
    filter, then once more per kept account to classify.  On a chain with
    [n] subscription accounts whose first [n] clock readings fall in the
    second [now1] and whose later ones fall in the second [now2], the accounts
    kept are those with [endTime > now1]; when their end times have at most
    53 bits, each is given its status at [now2], and otherwise the call
    rejects with the error [toNumber] throws. *)
Theorem getAllSubscriptionsForUser_two_clock_passes :
  forall (accounts : list ProgramAccount) (user : PublicKey),
    subscription_accounts ch = Ok accounts ->
    (forall i, (i < List.length accounts)%nat ->
               seconds (clock_ms ch i) = now1) ->
    (forall i, (List.length accounts <= i)%nat ->
               seconds (clock_ms ch i) = now2) ->
    final (run (chain_world ch) (getAllSubscriptionsForUser user) 0%nat)
    = let kept :=
        filter (fun acc => now1 <? endTime (account acc)) accounts in
      if forallb (fun acc =>
                    Z.abs (endTime (account acc)) <? 9007199254740992)
                 kept
      then Resolved
             (map (fun acc =>
                     {| subscription := account acc;
                        subscriptionPDA_of := publicKey acc;
                        status_of := classify (endTime (account acc)) now2 |})
                  kept)
      else Rejected (newError "Number can only safely store up to 53 bits").
Proof.
  intros accounts user Hall Hfirst Hlater.
  unfold getAllSubscriptionsForUser.
  rewrite run_translated. cbn [final].
  rewrite run_bind, run_await.
  cbn [respond chain_world chain_respond fst snd final state_after].
  rewrite Hall.
  destruct (filter_pass_chain accounts (n := 0%nat)) as [Hfinal Hstate].
  { intros i Hi. apply Hfirst. lia. }
  rewrite run_bind, Hfinal. cbn [final].
  rewrite run_bind, Hstate.
  rewrite map_pass_chain by (intros i Hi; apply Hlater; lia).
  cbv zeta.
  replace (filter (fun acc => endTime (account acc) >? now1) accounts)
    with (filter (fun acc => now1 <? endTime (account acc)) accounts)
    by (apply filter_ext; intros acc; symmetry; apply Z.gtb_ltb).
  change (fun acc : ProgramAccount =>
            Z.abs (endTime (account acc)) <? 9007199254740992)
    with (fun acc : ProgramAccount => fits_53_bits (endTime (account acc))).
  destruct (forallb _ _); reflexivity.
Qed.

End MovingClock.

(** ** The further statements at concrete worlds *)

(** A refusal with code 6001 is translated to ["Already subscribed"]. *)
Lemma handleError_kind_iff_witness :
  handleError program_refusal = newError "Already subscribed"
  <-> CodeNumber 6001 = CodeNumber 6001.
Proof.
  exact (@handleError_kind_iff program_refusal (CodeNumber 6001)
           AlreadySubscribed eq_refl).
Defined.

(** One second left at a later clock, more than a week at an earlier one. *)
Lemma classify_monotone_witness :
  status_rank (classify 1700000001 1700000000)
  <= status_rank (classify 1700700000 1699999999).
Proof.
  apply (@classify_monotone 1700000001 1700700000 1700000000 1699999999);
    intros H; discriminate H.
Defined.

(** The thirty-day subscription of [create_run] is active when created. *)
Lemma createSubscription_fresh_status_witness :
  subscribe_endTimes (trace create_run) = [1702592000] /\
  Forall (fun endTime => classify endTime 1700000000 = active) [1702592000].
Proof.
  split; [reflexivity |].
  exact (@createSubscription_fresh_status
           demo_web3 demo_adapter nat (chain_world three_chain) 0%nat
           demo_create 1700000000 (fun _ => eq_refl)).
Defined.

(** On [refusing_chain] the creation is rejected as already subscribed. *)
Lemma createSubscription_named_rejection_witness :
  final (run (chain_world refusing_chain)
             (createSubscription (web3 := demo_web3) demo_adapter demo_create)
             0%nat)
  = Rejected (newError "Already subscribed").
Proof.
  exact (@createSubscription_named_rejection
           demo_web3 demo_adapter nat (chain_world refusing_chain)
           0%nat 0%nat demo_create alice {| owner := admin |}
           program_refusal AlreadySubscribed
           eq_refl eq_refl eq_refl eq_refl eq_refl eq_refl).
Defined.

(** On [three_chain] the quality record exists: two fetches, one renew. *)
Lemma renewSubscription_present_quality_witness :
  List.length
    (trace (run (chain_world three_chain)
                (renewSubscription (web3 := demo_web3) demo_adapter demo_renew)
                0%nat)) = 3%nat /\
  final (run (chain_world three_chain)
             (renewSubscription (web3 := demo_web3) demo_adapter demo_renew)
             0%nat)
  = Resolved "tx-1".
Proof.
  destruct (@renewSubscription_present_quality
              demo_web3 demo_adapter nat (chain_world three_chain)
              0%nat 0%nat 0%nat demo_renew alice (quality_info [])
              {| owner := admin |} eq_refl eq_refl eq_refl eq_refl)
    as [Htrace Hfinal].
  split; [rewrite Htrace; reflexivity | exact Hfinal].
Defined.

(** On [stateless_chain] the quality record is initialized and the renewal
    then fails on the state account. *)
Lemma renewSubscription_initialized_then_failed_witness :
  final (run (chain_world stateless_chain)
             (renewSubscription (web3 := demo_web3) demo_adapter demo_renew)
             0%nat)
  = Rejected account_not_found /\
  count_events is_initialize
    (trace (run (chain_world stateless_chain)
                (renewSubscription (web3 := demo_web3) demo_adapter demo_renew)
                0%nat)) = 1%nat.
Proof.
  destruct (@renewSubscription_initialized_then_failed
              demo_web3 demo_adapter nat (chain_world stateless_chain)
              0%nat 0%nat 0%nat demo_renew alice account_not_found
              account_not_found "tx-init" eq_refl eq_refl eq_refl eq_refl)
    as [Hfinal Htrace].
  split; [exact Hfinal | rewrite Htrace; reflexivity].
Defined.

(** On [first_renewal_chain] the call resolves to the renew signature. *)
Lemma renewSubscription_first_renewal_witness :
  List.length
    (trace (run (chain_world first_renewal_chain)
                (renewSubscription (web3 := demo_web3) demo_adapter demo_renew)
                0%nat)) = 4%nat /\
  final (run (chain_world first_renewal_chain)
             (renewSubscription (web3 := demo_web3) demo_adapter demo_renew)
             0%nat)
  = Resolved "tx-renew".
Proof.
  destruct (@renewSubscription_first_renewal
              demo_web3 demo_adapter nat (chain_world first_renewal_chain)
              0%nat 0%nat 0%nat 0%nat demo_renew alice account_not_found
              {| owner := admin |} "tx-init"
              eq_refl eq_refl eq_refl eq_refl eq_refl)
    as [Htrace [_ Hfinal]].
  split; [rewrite Htrace; reflexivity | exact Hfinal].
Defined.

(** On [three_chain] the two accounts ending after the clock value are
    returned, in order. *)
Lemma getAllSubscriptionsForUser_exact_witness :
  final (run (chain_world three_chain) (getAllSubscriptionsForUser bob) 0%nat)
  = Resolved three_listed.
Proof.
  exact (@getAllSubscriptionsForUser_exact
           nat (chain_world three_chain) 1700000000 bob 0%nat
           (fun _ => eq_refl)).
Defined.

(** On [ticking_chain] a record is returned with the status expired. *)
Lemma getAllSubscriptionsForUser_two_clock_passes_witness :
  final (run (chain_world ticking_chain) (getAllSubscriptionsForUser alice)
             0%nat)
  = Resolved ticking_listed.
Proof.
  refine (@getAllSubscriptionsForUser_two_clock_passes
            ticking_chain 1700604799 1700604800 _ alice eq_refl _ _).
  - intros i Hi. destruct i as [| [| [| i]]]; try reflexivity.
    exfalso. cbn in Hi. lia.
  - intros i Hi. destruct i as [| [| [| i]]]; try reflexivity;
      exfalso; cbn in Hi; lia.
Defined.

(** With every call accepted, the wallet gets the mint and its account. *)
Lemma mintRegistrationNFT_steps_witness :
  script_final (script_run (fixed_backend demo_answer)
                           (mintRegistrationNFT (web3 := demo_web3)
                                                demo_adapter) tt)
  = Resolved {| mint := [x33]; tokenAccount := alice ++ [x33] |}.
Proof.
  exact (proj2 (@mintRegistrationNFT_steps
                  demo_web3 demo_adapter unit (fixed_backend demo_answer)
                  tt alice eq_refl)).
Defined.

(** [cancelSubscription] and [getProviderTokenAccount] on the same backend:
    one submission with the NFT account left undefined, and the associated
    address of a provider that holds the NFT. *)
Example side_methods_samples :
  script_final (script_run (fixed_backend demo_answer)
                           (cancelSubscription (web3 := demo_web3)
                                               demo_adapter demo_cancel) tt)
  = Resolved "tx-cancel" /\
  List.length
    (script_trace (script_run (fixed_backend demo_answer)
                              (cancelSubscription (web3 := demo_web3)
                                                  demo_adapter demo_cancel)
                              tt)) = 1%nat /\
  script_final (script_run (fixed_backend demo_answer)
                           (getProviderTokenAccount (Ok [x44]) provider1) tt)
  = Resolved (provider1 ++ [x44]).
Proof. repeat split. Qed.

(** ** Conversions outside the 53-bit range *)

Section RangeFacts.
Context {web3 : Web3}.
Variable this : FxnSolanaAdapter.
Variable S : Type.
Variable w : World S.

(** X19. When the end time [createSubscription] computes, the clock reading
    in seconds plus [durationInDays * 86400], does not fit 53 bits, the call
    fetches the state account and reads the clock, then rejects with the
    error ["Assertion failed"] raised by [new BN]: no [subscribe] is
    submitted. *)
Theorem createSubscription_end_time_out_of_range :
  forall (s s1 : S) (params : CreateSubscriptionParams.t)
         (subscriber : PublicKey) (state : StateAccount),
    let pdas :=
      getProgramAddresses
        this (CreateSubscriptionParams.dataProvider params) subscriber in
    let ms := fst (respond w Date_now s1) in
    let r := run w (createSubscription this params) s in
    wallet_publicKey this = Some subscriber ->
    respond w (state_fetch (statePDA pdas)) s = (Ok state, s1) ->
    9007199254740992
    <= Z.abs (seconds ms
              + CreateSubscriptionParams.durationInDays params * 86400) ->
    final r = Rejected (newError "Assertion failed") /\
    trace r = [ Event (state_fetch (statePDA pdas)) (Ok state);
                Event Date_now ms ] /\
    existsb is_rpc (trace r) = false.
Proof.
  intros s s1 params subscriber state pdas ms r Hwallet Hstate Hbig.
  subst r ms pdas.
  unfold createSubscription, await, perform. rewrite Hwallet.
  replace (CreateSubscriptionParams.durationInDays params * 86400)
    with (CreateSubscriptionParams.durationInDays params * 24 * 60 * 60)
    in * by lia.
  simpl in Hstate |- *. rewrite Hstate. simpl.
  destruct (respond w Date_now s1) as [ms s2]. simpl in Hbig |- *.
  rewrite BN_of_number_unsafe by exact Hbig. simpl.
  repeat split.
Qed.

(** X20. When the new end time does not fit 53 bits, [renewSubscription]
    never submits the renew transition and never resolves, in any world;
    when the quality record and the state account can be fetched it makes
    these two fetches and rejects with the error ["Assertion failed"] raised
    by [new BN]. *)
Theorem renewSubscription_end_time_out_of_range :
  forall (s : S) (params : RenewParams.t) (subscriber : PublicKey),
    let pdas :=
      getProgramAddresses this (RenewParams.dataProvider params) subscriber in
    let r := run w (renewSubscription this params) s in
    wallet_publicKey this = Some subscriber ->
    9007199254740992 <= Z.abs (RenewParams.newEndTime params) ->
    count_events is_renew (trace r) = 0%nat /\
    (forall txHash, final r <> Resolved txHash) /\
    (forall quality state s1 s2,
        respond w (qualityInfo_fetch (qualityPDA pdas)) s = (Ok quality, s1) ->
        respond w (state_fetch (statePDA pdas)) s1 = (Ok state, s2) ->
        final r = Rejected (newError "Assertion failed") /\
        trace r = [ Event (qualityInfo_fetch (qualityPDA pdas)) (Ok quality);
                    Event (state_fetch (statePDA pdas)) (Ok state) ]).
Proof.
  intros s params subscriber pdas r Hwallet Hbig. subst r pdas.
  unfold renewSubscription, await. rewrite Hwallet. simpl.
  destruct (respond w (qualityInfo_fetch _) s) as [[quality | e0] s1] eqn:Eq;
    simpl.
  - destruct (respond w (state_fetch _) s1) as [[state | e] s2] eqn:Est;
      simpl.
    + rewrite BN_of_number_unsafe by exact Hbig. simpl.
      split; [reflexivity |]. split; [discriminate |].
      intros q st s1' s2' Hq Hst.
      injection Hq as <- <-. rewrite Est in Hst. injection Hst as <- <-.
      split; reflexivity.
    + split; [reflexivity |]. split; [discriminate |].
      intros q st s1' s2' Hq Hst.
      injection Hq as <- <-. rewrite Est in Hst. discriminate Hst.
  - split; [| split].
    + destruct (respond w (rpc _) s1) as [[txInit | e] s2]; simpl;
        [| reflexivity].
      destruct (respond w (state_fetch _) s2) as [[state | e] s3]; simpl;
        [| reflexivity].
      rewrite BN_of_number_unsafe by exact Hbig. reflexivity.
    + intros txHash.
      destruct (respond w (rpc _) s1) as [[txInit | e] s2]; simpl;
        [| discriminate].
      destruct (respond w (state_fetch _) s2) as [[state | e] s3]; simpl;
        [| discriminate].
      rewrite BN_of_number_unsafe by exact Hbig. discriminate.
    + intros q st s1' s2' Hq. discriminate Hq.
Qed.

End RangeFacts.

(** ** The revised statements at concrete worlds *)

(** C2, as stated for every end time, fails at 2^53 seconds: it lies more
    than a week after the clock reading, and the classifier returns no
    status, since [toNumber] throws. *)
Lemma getSubscriptionStatus_refuses_large_end_time :
  9007199254740992 - seconds (clock_ms three_chain 0) > 604800 /\
  final far_status_run
  = Rejected (newError "Number can only safely store up to 53 bits") /\
  final far_status_run <> Resolved active.
Proof.
  split; [reflexivity |]. split; [reflexivity | discriminate].
Qed.

(** Seven days left on [three_chain]: expiring soon, and active one second
    later. *)
Lemma getSubscriptionStatus_thresholds_witness :
  final (run (chain_world three_chain) (getSubscriptionStatus 1700604800)
             0%nat)
  = Resolved expiring_soon /\
  final (run (chain_world three_chain) (getSubscriptionStatus 1700604801)
             0%nat)
  = Resolved active.
Proof.
  destruct (@getSubscriptionStatus_thresholds
              nat (chain_world three_chain) 0%nat 1700604800 eq_refl)
    as [_ [_ [_ [Hsoon [Hactive _]]]]].
  split; [exact (Hsoon eq_refl) | exact (Hactive eq_refl)].
Defined.

(** C3, as stated, fails twice: on [null] the translator throws, and a
    thrown plain object without a code comes back as an error whose message
    is its string conversion, not its message. *)
Lemma handleError_throws_and_drops_message :
  handleError_any js_null
  = throws (TypeError "Cannot read properties of null (reading 'code')") /\
  code plain_object = None /\
  message plain_object = Some "plain object" /\
  handleError_any (js_value plain_object)
  = returns (newError "[object Object]") /\
  message (handleError plain_object) = Some "[object Object]" /\
  message (handleError plain_object) <> message plain_object.
Proof. repeat split. discriminate. Qed.

(** A refusal with code 6001, and an [Error] without a code. *)
Lemma handleError_any_translation_witness :
  handleError_any (js_value program_refusal)
  = returns (newError "Already subscribed") /\
  handleError_any (js_value account_not_found) = returns account_not_found.
Proof.
  split.
  - destruct (handleError_any_translation (js_value program_refusal))
      as [r [Hr [Hk _]]].
    rewrite Hr. f_equal. exact (Hk AlreadySubscribed eq_refl).
  - destruct (handleError_any_translation (js_value account_not_found))
      as [r [Hr [_ [_ [He _]]]]].
    rewrite Hr. f_equal. exact (proj1 (He eq_refl eq_refl)).
Defined.

(** On [first_renewal_chain] the probe fails, then come the initialize
    submission, the state fetch and the renew submission; on [race_chain]
    the run ends with the refused initialize submission. *)
Lemma renewSubscription_two_step_witness :
  (List.length
     (trace (run (chain_world first_renewal_chain)
                 (renewSubscription (web3 := demo_web3) demo_adapter
                                    demo_renew) 0%nat)) = 4%nat /\
   count_events is_initialize
     (trace (run (chain_world first_renewal_chain)
                 (renewSubscription (web3 := demo_web3) demo_adapter
                                    demo_renew) 0%nat)) = 1%nat /\
   count_events is_renew
     (trace (run (chain_world first_renewal_chain)
                 (renewSubscription (web3 := demo_web3) demo_adapter
                                    demo_renew) 0%nat)) = 1%nat) /\
  (List.length (trace race_run) = 2%nat /\
   count_events is_renew (trace race_run) = 0%nat) /\
  count_events is_initialize
    (trace (run (chain_world three_chain)
                (renewSubscription (web3 := demo_web3) demo_adapter
                                   demo_renew) 0%nat)) = 0%nat.
Proof.
  destruct (@renewSubscription_two_step
              demo_web3 demo_adapter nat (chain_world first_renewal_chain)
              0%nat demo_renew alice eq_refl)
    as [Hfirst [Hcount _]].
  destruct (@renewSubscription_two_step
              demo_web3 demo_adapter nat (chain_world race_chain)
              0%nat demo_renew alice eq_refl)
    as [Hrace [_ [Hnone _]]].
  destruct (@renewSubscription_two_step
              demo_web3 demo_adapter nat (chain_world three_chain)
              0%nat demo_renew alice eq_refl)
    as [_ Hpresent].
  split; [| split].
  - split; [rewrite Hfirst; reflexivity |].
    split; [exact Hcount | rewrite Hfirst; reflexivity].
  - split; [unfold race_run; rewrite Hrace; reflexivity | exact Hnone].
  - exact Hpresent.
Defined.

(** On [three_chain] a subscription for 10^12 days is rejected by [new BN]
    after the state fetch and the clock reading. *)
Lemma createSubscription_end_time_out_of_range_witness :
  final overlong_create_run = Rejected (newError "Assertion failed") /\
  List.length (trace overlong_create_run) = 2%nat.
Proof.
  destruct (@createSubscription_end_time_out_of_range
              demo_web3 demo_adapter nat (chain_world three_chain)
              0%nat 0%nat overlong_create alice {| owner := admin |}
              eq_refl eq_refl)
    as [Hfinal [Htrace _]].
  - intros H. discriminate H.
  - split; [exact Hfinal | unfold overlong_create_run; rewrite Htrace;
                           reflexivity].
Defined.

(** On [three_chain] a renewal until 2^53 is rejected after the two
    fetches. *)
Lemma renewSubscription_end_time_out_of_range_witness :
  final (run (chain_world three_chain)
             (renewSubscription (web3 := demo_web3) demo_adapter
                                overlong_renew) 0%nat)
  = Rejected (newError "Assertion failed") /\
  count_events is_renew
    (trace (run (chain_world three_chain)
                (renewSubscription (web3 := demo_web3) demo_adapter
                                   overlong_renew) 0%nat)) = 0%nat.
Proof.
  destruct (@renewSubscription_end_time_out_of_range
              demo_web3 demo_adapter nat (chain_world three_chain)
              0%nat overlong_renew alice eq_refl)
    as [Hcount [_ Hpath]].
  - intros H. discriminate H.
  - split; [| exact Hcount].
    exact (proj1 (Hpath (quality_info []) {| owner := admin |} 0%nat 0%nat
                        eq_refl eq_refl)).
Defined.
